(** * Minecraft schematic to LDraw converter: a shallow embedding

    Embedding of [minecraft_to_lego_converter.py] (class
    [MinecraftToLegoConverter]): the varint codec, the [.schem] palette
    resolution, the block classifier and colour resolver, the greedy merge
    and the part emitter, followed by the properties established for them.

    Conventions of the embedding.
    - Python [int] is [Z]; the loops [for v in range(n)] run over
      [seqZ 0 n] (empty when [n <= 0], as [range] is).
    - Python [str] is [string]; the string methods the converter calls are
      written out in [Module Py].
    - A [dict] literal or a dict filled by assignment is an association
      list in insertion order read by [Py.dict_get], which returns the
      binding written last, as Python does.
    - The boolean array [used] is the finite set of the indices holding
      [True].
    - The [float] positions are exact rationals [Q]: every position the
      converter computes is a half-integer times an integer, which binary
      floating point represents exactly. *)

From Stdlib Require Import ZArith QArith String Ascii List Lia.
From Stdlib Require Import DecimalString.
From Stdlib Require DecimalPos.
From Equations Require Import Equations.
From stdpp Require Import base list gmap strings numbers.

Open Scope Z_scope.

(** ** Python primitives used by the converter *)

Module Py.

(** [str(n)] for an [int]. *)
Definition str_int (n : Z) : string := NilZero.string_of_int (Z.to_int n).

(** [sub in s] for strings. *)
Fixpoint contains (sub s : string) : bool :=
  match s with
  | EmptyString => String.prefix sub EmptyString
  | String _ s' => String.prefix sub s || contains sub s'
  end.

(** [s.replace(old, new)] for a non-empty [old]: non-overlapping
    occurrences, left to right.  [skip] counts the characters of a matched
    occurrence still to be dropped. *)
Fixpoint replace_from (old new : string) (skip : nat) (s : string) : string :=
  match s with
  | EmptyString => EmptyString
  | String c s' =>
      match skip with
      | S k => replace_from old new k s'
      | O =>
          if String.prefix old s
          then new +:+ replace_from old new (String.length old - 1) s'
          else String c (replace_from old new 0 s')
      end
  end.

Definition replace (old new s : string) : string := replace_from old new 0 s.

(** [s.split(sep)] for a one-character separator: at least one piece. *)
Fixpoint split (sep : ascii) (s : string) : list string :=
  match s with
  | EmptyString => [EmptyString]
  | String c s' =>
      if Ascii.eqb c sep then EmptyString :: split sep s'
      else match split sep s' with
           | p :: ps => String c p :: ps
           | [] => [String c EmptyString]
           end
  end.

(** [s.split(sep, 1)]: one piece, or two when [sep] occurs. *)
Fixpoint split1 (sep : ascii) (s : string) : list string :=
  match s with
  | EmptyString => [EmptyString]
  | String c s' =>
      if Ascii.eqb c sep then [EmptyString; s']
      else match split1 sep s' with
           | p :: ps => String c p :: ps
           | [] => [String c EmptyString]
           end
  end.

(** [s.rstrip(c)] for a one-character set. *)
Fixpoint rstrip (c : ascii) (s : string) : string :=
  match s with
  | EmptyString => EmptyString
  | String a s' =>
      match rstrip c s' with
      | EmptyString => if Ascii.eqb a c then EmptyString else String a EmptyString
      | t => String a t
      end
  end.

(** [s.lower()] on the ASCII letters. *)
Definition lower_char (c : ascii) : ascii :=
  let n := nat_of_ascii c in
  if (Nat.leb 65 n && Nat.leb n 90)%bool then ascii_of_nat (n + 32) else c.

Fixpoint lower (s : string) : string :=
  match s with
  | EmptyString => EmptyString
  | String c s' => String (lower_char c) (lower s')
  end.

(** [sep.join(l)]. *)
Definition join (sep : string) (l : list string) : string := String.concat sep l.

(** [d.get(k)] on a dict in insertion order: the last binding of [k]. *)
Fixpoint dict_get {K V : Type} `{EqDecision K} (d : list (K * V)) (k : K) : option V :=
  match d with
  | [] => None
  | (k', v) :: d' =>
      match dict_get d' k with
      | Some w => Some w
      | None => if decide (k = k') then Some v else None
      end
  end.

(** [d.get(k, dflt)]. *)
Definition dict_get_default {K V : Type} `{EqDecision K}
    (d : list (K * V)) (k : K) (dflt : V) : V :=
  match dict_get d k with Some v => v | None => dflt end.

(** [k in d]. *)
Definition dict_mem {K V : Type} `{EqDecision K} (d : list (K * V)) (k : K) : bool :=
  match dict_get d k with Some _ => true | None => false end.

(** Rounding of [num / den] to the nearest integer, ties to even. *)
Definition round_half_even (num : Z) (den : positive) : Z :=
  let q := num / Zpos den in
  let r := num mod Zpos den in
  if 2 * r <? Zpos den then q
  else if Zpos den <? 2 * r then q + 1
  else if Z.even q then q else q + 1.

(** [f"{v:.2f}"]: sign, integer part, a point and exactly two digits. *)
Definition fmt2f (v : Q) : string :=
  let n := round_half_even (Z.abs (Qnum v) * 100) (Qden v) in
  (if Qnum v <? 0 then "-" else EmptyString)
    +:+ str_int (n / 100) +:+ "."
    +:+ str_int ((n mod 100) / 10) +:+ str_int ((n mod 100) mod 10).

(** [int(tok)] for a decimal literal with an optional minus sign. *)
Definition digit_of (c : ascii) : option Z :=
  let n := nat_of_ascii c in
  if (Nat.leb 48 n && Nat.leb n 57)%bool then Some (Z.of_nat n - 48) else None.

Fixpoint parse_digits (acc : Z) (s : string) : option Z :=
  match s with
  | EmptyString => Some acc
  | String c s' =>
      match digit_of c with
      | Some d => parse_digits (10 * acc + d) s'
      | None => None
      end
  end.

Definition parse_int (s : string) : option Z :=
  match s with
  | EmptyString => None
  | String "-" EmptyString => None
  | String "-" s' => Z.opp <$> parse_digits 0 s'
  | _ => parse_digits 0 s
  end.

End Py.

(** ** Varint codec ([_decode_varint_array]) *)

(** [byte = data[i] if data[i] >= 0 else data[i] + 256]. *)
Definition unsigned_byte (b : Z) : Z := if 0 <=? b then b else b + 256.

(** The inner [while True] loop: it reads bytes from the current position,
    accumulating seven bits each, until a byte without the continuation bit
    or the end of the data; it returns the value and the unread bytes. *)
Fixpoint read_varint (data : list Z) (value shift : Z) : Z * list Z :=
  match data with
  | [] => (value, [])
  | b :: rest =>
      let byte := unsigned_byte b in
      let value' := Z.lor value (Z.shiftl (Z.land byte 127) shift) in
      if Z.land byte 128 =? 0 then (value', rest)
      else read_varint rest value' (shift + 7)
  end.

(** The outer loop [while i < len(data) and len(result) < expected_length]. *)
Equations? decode_varint_loop (data : list Z) (expected_length : Z) (result : list Z)
  : list Z by wf (length data) lt :=
  decode_varint_loop [] _ result := result;
  decode_varint_loop (b :: rest) expected_length result :=
    if Z.of_nat (length result) <? expected_length
    then decode_varint_loop (snd (read_varint (b :: rest) 0 0)) expected_length
           (result ++ [fst (read_varint (b :: rest) 0 0)])
    else result.
Proof.
  assert (Hle : forall d v s, (length (snd (read_varint d v s)) <= length d)%nat).
  { induction d as [|c d IH]; intros v s; simpl; [lia|].
    destruct (Z.land (unsigned_byte c) 128 =? 0); simpl; [lia|].
    specialize (IH (Z.lor v (Z.shiftl (Z.land (unsigned_byte c) 127) s)) (s + 7)). lia. }
  simpl. destruct (Z.land (unsigned_byte b) 128 =? 0); simpl; [lia|].
  specialize (Hle rest (Z.lor 0 (Z.shiftl (Z.land (unsigned_byte b) 127) 0)) (0 + 7)). lia.
Qed.

Definition _decode_varint_array (data : list Z) (expected_length : Z) : list Z :=
  decode_varint_loop data expected_length [].

(** ** Constant tables of [MinecraftToLegoConverter.__init__] *)

Definition default_brick : string := "3005".

(** [brick_sizes], keyed by (width along Z, length along X). *)
Definition brick_sizes : list ((Z * Z) * string) :=
  [ ((1, 8), "3008"); ((1, 6), "3009"); ((1, 4), "3010"); ((1, 3), "3622");
    ((1, 2), "3004"); ((1, 1), "3005");
    ((2, 8), "3007"); ((2, 6), "2456"); ((2, 4), "3001"); ((2, 3), "3002");
    ((2, 2), "3003") ]%string.

Definition skip_blocks : list string :=
  [
    "torch"; "wall_torch"; "soul_torch"; "soul_wall_torch";
    "redstone_torch"; "redstone_wall_torch"; "lantern"; "soul_lantern";
    "candle"; "candle_cake"; "white_candle"; "orange_candle";
    "magenta_candle"; "light_blue_candle"; "yellow_candle"; "lime_candle";
    "pink_candle"; "gray_candle"; "light_gray_candle"; "cyan_candle";
    "purple_candle"; "blue_candle"; "brown_candle"; "green_candle";
    "red_candle"; "black_candle"; "oak_sign"; "spruce_sign";
    "birch_sign"; "jungle_sign"; "acacia_sign"; "dark_oak_sign";
    "mangrove_sign"; "cherry_sign"; "bamboo_sign"; "crimson_sign";
    "warped_sign"; "oak_wall_sign"; "spruce_wall_sign"; "birch_wall_sign";
    "jungle_wall_sign"; "acacia_wall_sign"; "dark_oak_wall_sign"; "mangrove_wall_sign";
    "cherry_wall_sign"; "bamboo_wall_sign"; "crimson_wall_sign"; "warped_wall_sign";
    "oak_hanging_sign"; "spruce_hanging_sign"; "birch_hanging_sign"; "jungle_hanging_sign";
    "acacia_hanging_sign"; "dark_oak_hanging_sign"; "mangrove_hanging_sign"; "cherry_hanging_sign";
    "bamboo_hanging_sign"; "crimson_hanging_sign"; "warped_hanging_sign"; "stone_button";
    "oak_button"; "spruce_button"; "birch_button"; "jungle_button";
    "acacia_button"; "dark_oak_button"; "mangrove_button"; "cherry_button";
    "bamboo_button"; "crimson_button"; "warped_button"; "polished_blackstone_button";
    "stone_pressure_plate"; "oak_pressure_plate"; "spruce_pressure_plate"; "birch_pressure_plate";
    "jungle_pressure_plate"; "acacia_pressure_plate"; "dark_oak_pressure_plate"; "mangrove_pressure_plate";
    "cherry_pressure_plate"; "bamboo_pressure_plate"; "crimson_pressure_plate"; "warped_pressure_plate";
    "light_weighted_pressure_plate"; "heavy_weighted_pressure_plate"; "polished_blackstone_pressure_plate"; "redstone_wire";
    "repeater"; "comparator"; "lever"; "tripwire";
    "tripwire_hook"; "rail"; "powered_rail"; "detector_rail";
    "activator_rail"; "oak_door"; "spruce_door"; "birch_door";
    "jungle_door"; "acacia_door"; "dark_oak_door"; "mangrove_door";
    "cherry_door"; "bamboo_door"; "crimson_door"; "warped_door";
    "iron_door"; "oak_trapdoor"; "spruce_trapdoor"; "birch_trapdoor";
    "jungle_trapdoor"; "acacia_trapdoor"; "dark_oak_trapdoor"; "mangrove_trapdoor";
    "cherry_trapdoor"; "bamboo_trapdoor"; "crimson_trapdoor"; "warped_trapdoor";
    "iron_trapdoor"; "dandelion"; "poppy"; "blue_orchid";
    "allium"; "azure_bluet"; "red_tulip"; "orange_tulip";
    "white_tulip"; "pink_tulip"; "oxeye_daisy"; "cornflower";
    "lily_of_the_valley"; "wither_rose"; "torchflower"; "pitcher_plant";
    "sunflower"; "lilac"; "rose_bush"; "peony";
    "grass"; "tall_grass"; "fern"; "large_fern";
    "dead_bush"; "seagrass"; "tall_seagrass"; "kelp";
    "kelp_plant"; "sweet_berry_bush"; "cave_vines"; "cave_vines_plant";
    "hanging_roots"; "spore_blossom"; "glow_lichen"; "sculk_vein";
    "oak_sapling"; "spruce_sapling"; "birch_sapling"; "jungle_sapling";
    "acacia_sapling"; "dark_oak_sapling"; "mangrove_propagule"; "cherry_sapling";
    "bamboo_sapling"; "ladder"; "vine"; "sugar_cane";
    "lily_pad"; "cobweb"; "string"; "fire";
    "soul_fire"; "end_rod"; "lightning_rod"; "chain";
    "scaffolding"; "pointed_dripstone"; "flower_pot"; "potted_oak_sapling";
    "potted_spruce_sapling"; "potted_birch_sapling"; "potted_jungle_sapling"; "potted_acacia_sapling";
    "potted_dark_oak_sapling"; "potted_mangrove_propagule"; "potted_cherry_sapling"; "potted_fern";
    "potted_dandelion"; "potted_poppy"; "potted_blue_orchid"; "potted_allium";
    "potted_azure_bluet"; "potted_red_tulip"; "potted_orange_tulip"; "potted_white_tulip";
    "potted_pink_tulip"; "potted_oxeye_daisy"; "potted_cornflower"; "potted_lily_of_the_valley";
    "potted_wither_rose"; "potted_dead_bush"; "potted_cactus"; "potted_bamboo";
    "potted_crimson_fungus"; "potted_warped_fungus"; "potted_crimson_roots"; "potted_warped_roots";
    "potted_azalea_bush"; "potted_flowering_azalea_bush"; "potted_torchflower"; "wheat";
    "carrots"; "potatoes"; "beetroots"; "nether_wart";
    "cocoa"; "melon_stem"; "pumpkin_stem"; "attached_melon_stem";
    "attached_pumpkin_stem"; "skeleton_skull"; "skeleton_wall_skull"; "wither_skeleton_skull";
    "wither_skeleton_wall_skull"; "zombie_head"; "zombie_wall_head"; "player_head";
    "player_wall_head"; "creeper_head"; "creeper_wall_head"; "dragon_head";
    "dragon_wall_head"; "piglin_head"; "piglin_wall_head"; "white_banner";
    "orange_banner"; "magenta_banner"; "light_blue_banner"; "yellow_banner";
    "lime_banner"; "pink_banner"; "gray_banner"; "light_gray_banner";
    "cyan_banner"; "purple_banner"; "blue_banner"; "brown_banner";
    "green_banner"; "red_banner"; "black_banner"; "white_wall_banner";
    "orange_wall_banner"; "magenta_wall_banner"; "light_blue_wall_banner"; "yellow_wall_banner";
    "lime_wall_banner"; "pink_wall_banner"; "gray_wall_banner"; "light_gray_wall_banner";
    "cyan_wall_banner"; "purple_wall_banner"; "blue_wall_banner"; "brown_wall_banner";
    "green_wall_banner"; "red_wall_banner"; "black_wall_banner"; "brewing_stand";
    "cauldron"; "water_cauldron"; "lava_cauldron"; "powder_snow_cauldron";
    "anvil"; "chipped_anvil"; "damaged_anvil"; "oak_fence";
    "spruce_fence"; "birch_fence"; "jungle_fence"; "acacia_fence";
    "dark_oak_fence"; "mangrove_fence"; "cherry_fence"; "bamboo_fence";
    "crimson_fence"; "warped_fence"; "nether_brick_fence"; "oak_fence_gate";
    "spruce_fence_gate"; "birch_fence_gate"; "jungle_fence_gate"; "acacia_fence_gate";
    "dark_oak_fence_gate"; "mangrove_fence_gate"; "cherry_fence_gate"; "bamboo_fence_gate";
    "crimson_fence_gate"; "warped_fence_gate"; "cobblestone_wall"; "mossy_cobblestone_wall";
    "stone_brick_wall"; "mossy_stone_brick_wall"; "granite_wall"; "diorite_wall";
    "andesite_wall"; "brick_wall"; "sandstone_wall"; "red_sandstone_wall";
    "prismarine_wall"; "nether_brick_wall"; "red_nether_brick_wall"; "blackstone_wall";
    "polished_blackstone_wall"; "polished_blackstone_brick_wall"; "end_stone_brick_wall"; "cobbled_deepslate_wall";
    "polished_deepslate_wall"; "deepslate_brick_wall"; "deepslate_tile_wall"; "mud_brick_wall"
  ]%string.

(** [special_parts]. *)
Definition special_parts : list (string * string) :=
  [ ("slab", "3024"); ("stair", "54200") ]%string.

(** [rotations]: a 3x3 matrix as nine values, row by row. *)
Definition rotations : list (string * string) :=
  [ ("north", "1 0 0 0 1 0 0 0 1");
    ("east", "0 0 -1 0 1 0 1 0 0");
    ("south", "-1 0 0 0 1 0 0 0 -1");
    ("west", "0 0 1 0 1 0 -1 0 0") ]%string.

(** [wool_color_mappings]: data value to LDraw colour. *)
Definition wool_color_mappings : list (Z * Z) :=
  [ (0, 15); (1, 25); (2, 13); (3, 9); (4, 14); (5, 27); (6, 13); (7, 8);
    (8, 7); (9, 11); (10, 5); (11, 1); (12, 6); (13, 2); (14, 4); (15, 0) ].

(** [block_colors]: legacy block id to LDraw colour. *)
Definition block_colors : list (Z * Z) :=
  [
    (1, 71); (2, 10); (3, 6); (4, 72); (5, 70); (6, 10);
    (7, 0); (8, 73); (9, 73); (10, 25); (11, 25); (12, 19);
    (13, 71); (14, 14); (15, 71); (16, 0); (17, 70); (18, 2);
    (19, 14); (20, 47); (21, 1); (22, 1); (23, 72); (24, 19);
    (25, 70); (26, 4); (27, 14); (28, 70); (29, 27); (30, 15);
    (31, 2); (32, 6); (33, 70); (34, 19); (35, 15); (37, 14);
    (38, 4); (39, 6); (40, 4); (41, 14); (42, 71); (43, 71);
    (44, 71); (45, 320); (46, 4); (47, 70); (48, 378); (49, 0);
    (50, 25); (51, 25); (52, 9); (53, 70); (54, 70); (55, 4);
    (56, 41); (57, 41); (58, 70); (59, 326); (60, 6); (61, 72);
    (62, 72); (63, 70); (64, 70); (65, 70); (66, 72); (67, 72);
    (68, 70); (69, 72); (70, 71); (71, 71); (72, 70); (73, 4);
    (74, 4); (75, 4); (76, 4); (77, 71); (78, 15); (79, 41);
    (80, 15); (81, 288); (82, 71); (83, 27); (84, 70); (85, 70);
    (86, 25); (87, 320); (88, 6); (89, 326); (90, 85); (91, 25);
    (92, 15); (93, 71); (94, 71); (95, 47); (96, 70); (97, 71);
    (98, 71); (99, 6); (100, 4); (101, 72); (102, 47); (103, 10);
    (104, 2); (105, 2); (106, 2); (107, 70); (108, 320); (109, 71);
    (110, 379); (111, 10); (112, 320); (113, 320); (114, 320); (115, 4);
    (116, 41); (117, 85); (118, 72); (119, 0); (120, 378); (121, 326);
    (122, 0); (123, 25); (124, 25); (125, 70); (126, 70); (127, 2);
    (128, 19); (129, 10); (130, 85); (131, 70); (132, 7); (133, 10);
    (134, 70); (135, 191); (136, 70); (137, 25); (138, 41); (139, 72);
    (140, 70); (141, 2); (142, 2); (143, 70); (144, 15); (145, 72);
    (146, 70); (147, 14); (148, 71); (149, 71); (150, 71); (151, 70);
    (152, 4); (153, 320); (154, 72); (155, 15); (156, 15); (157, 70);
    (158, 72); (159, 15); (160, 47); (161, 10); (162, 70); (163, 484);
    (164, 6); (165, 27); (166, 47); (167, 71); (168, 11); (169, 41);
    (170, 14); (171, 15); (172, 28); (173, 0); (174, 41); (175, 2);
    (176, 15); (177, 15); (178, 70); (179, 484); (180, 484); (181, 484);
    (182, 484); (183, 70); (184, 191); (185, 70); (186, 6); (187, 484);
    (188, 70); (189, 191); (190, 70); (191, 6); (192, 484); (193, 70);
    (194, 191); (195, 70); (196, 484); (197, 6); (198, 4); (199, 85);
    (200, 85); (201, 85); (202, 85); (203, 85); (204, 85); (205, 85);
    (206, 326); (207, 2); (208, 6); (209, 0); (210, 25); (211, 27);
    (212, 41); (213, 25); (214, 320); (215, 320); (216, 15); (217, 85);
    (218, 72); (219, 15); (220, 25); (221, 5); (222, 9); (223, 14);
    (224, 27); (225, 13); (226, 8); (227, 7); (228, 11); (229, 85);
    (230, 1); (231, 6); (232, 2); (233, 4); (234, 0); (235, 15);
    (236, 25); (237, 5); (238, 9); (239, 14); (240, 27); (241, 13);
    (242, 8); (243, 7); (244, 11); (245, 85); (246, 1); (247, 6);
    (248, 2); (249, 4); (250, 0); (251, 15); (252, 15); (255, 72)
  ].

(** [name_to_id] of [_block_name_to_id]. *)
Definition name_to_id : list (string * Z) :=
  [
    ("air", 0); ("stone", 1); ("grass_block", 2); ("dirt", 3);
    ("cobblestone", 4); ("bedrock", 7); ("water", 8); ("lava", 10);
    ("sand", 12); ("gravel", 13); ("gold_ore", 14); ("iron_ore", 15);
    ("coal_ore", 16); ("glass", 20); ("glass_pane", 20); ("tinted_glass", 20);
    ("gold_block", 41); ("iron_block", 42); ("bricks", 45); ("tnt", 46);
    ("obsidian", 49); ("diamond_ore", 56); ("diamond_block", 57); ("redstone_ore", 73);
    ("ice", 79); ("snow_block", 80); ("clay", 82); ("netherrack", 87);
    ("glowstone", 89); ("stone_bricks", 98); ("emerald_block", 133); ("redstone_block", 152);
    ("quartz_block", 155); ("coal_block", 173); ("packed_ice", 174)
  ]%string.

(** [block_to_color] of [_get_color_from_block_name]; the literal repeats
    some keys, and the last binding of a key is the one in force. *)
Definition block_to_color : list (string * Z) :=
  [
    ("air", -1); ("stone", 71); ("cobblestone", 72);
    ("mossy_cobblestone", 378); ("granite", 25); ("polished_granite", 25);
    ("diorite", 7); ("polished_diorite", 7); ("andesite", 8);
    ("polished_andesite", 8); ("grass_block", 10); ("dirt", 6);
    ("coarse_dirt", 6); ("podzol", 6); ("bedrock", 0);
    ("sand", 19); ("red_sand", 25); ("gravel", 71);
    ("sandstone", 19); ("red_sandstone", 484); ("smooth_sandstone", 19);
    ("gold_ore", 14); ("deepslate_gold_ore", 14); ("nether_gold_ore", 14);
    ("iron_ore", 71); ("deepslate_iron_ore", 71); ("coal_ore", 0);
    ("deepslate_coal_ore", 0); ("diamond_ore", 41); ("deepslate_diamond_ore", 41);
    ("emerald_ore", 10); ("deepslate_emerald_ore", 10); ("lapis_ore", 1);
    ("deepslate_lapis_ore", 1); ("redstone_ore", 4); ("deepslate_redstone_ore", 4);
    ("copper_ore", 484); ("deepslate_copper_ore", 484); ("gold_block", 14);
    ("iron_block", 71); ("diamond_block", 41); ("emerald_block", 10);
    ("lapis_block", 1); ("redstone_block", 4); ("coal_block", 0);
    ("copper_block", 484); ("raw_copper_block", 484); ("raw_iron_block", 71);
    ("raw_gold_block", 14); ("netherite_block", 0); ("ancient_debris", 6);
    ("amethyst_block", 85); ("budding_amethyst", 85); ("glass", 47);
    ("glass_pane", 47); ("tinted_glass", 8); ("white_stained_glass", 47);
    ("white_stained_glass_pane", 47); ("orange_stained_glass", 182); ("orange_stained_glass_pane", 182);
    ("magenta_stained_glass", 113); ("magenta_stained_glass_pane", 113); ("light_blue_stained_glass", 41);
    ("light_blue_stained_glass_pane", 41); ("yellow_stained_glass", 46); ("yellow_stained_glass_pane", 46);
    ("lime_stained_glass", 35); ("lime_stained_glass_pane", 35); ("pink_stained_glass", 113);
    ("pink_stained_glass_pane", 113); ("gray_stained_glass", 40); ("gray_stained_glass_pane", 40);
    ("light_gray_stained_glass", 40); ("light_gray_stained_glass_pane", 40); ("cyan_stained_glass", 41);
    ("cyan_stained_glass_pane", 41); ("purple_stained_glass", 52); ("purple_stained_glass_pane", 52);
    ("blue_stained_glass", 33); ("blue_stained_glass_pane", 33); ("brown_stained_glass", 111);
    ("brown_stained_glass_pane", 111); ("green_stained_glass", 34); ("green_stained_glass_pane", 34);
    ("red_stained_glass", 36); ("red_stained_glass_pane", 36); ("black_stained_glass", 40);
    ("black_stained_glass_pane", 40); ("white_wool", 15); ("orange_wool", 25);
    ("magenta_wool", 5); ("light_blue_wool", 9); ("yellow_wool", 14);
    ("lime_wool", 27); ("pink_wool", 13); ("gray_wool", 8);
    ("light_gray_wool", 7); ("cyan_wool", 11); ("purple_wool", 85);
    ("blue_wool", 1); ("brown_wool", 6); ("green_wool", 2);
    ("red_wool", 4); ("black_wool", 0); ("white_carpet", 15);
    ("orange_carpet", 25); ("magenta_carpet", 5); ("light_blue_carpet", 9);
    ("yellow_carpet", 14); ("lime_carpet", 27); ("pink_carpet", 13);
    ("gray_carpet", 8); ("light_gray_carpet", 7); ("cyan_carpet", 11);
    ("purple_carpet", 85); ("blue_carpet", 1); ("brown_carpet", 6);
    ("green_carpet", 2); ("red_carpet", 4); ("black_carpet", 0);
    ("moss_carpet", 10); ("white_concrete", 15); ("orange_concrete", 25);
    ("magenta_concrete", 5); ("light_blue_concrete", 9); ("yellow_concrete", 14);
    ("lime_concrete", 27); ("pink_concrete", 13); ("gray_concrete", 8);
    ("light_gray_concrete", 7); ("cyan_concrete", 11); ("purple_concrete", 85);
    ("blue_concrete", 1); ("brown_concrete", 6); ("green_concrete", 2);
    ("red_concrete", 4); ("black_concrete", 0); ("terracotta", 28);
    ("white_terracotta", 15); ("orange_terracotta", 25); ("magenta_terracotta", 5);
    ("light_blue_terracotta", 9); ("yellow_terracotta", 14); ("lime_terracotta", 27);
    ("pink_terracotta", 13); ("gray_terracotta", 8); ("light_gray_terracotta", 7);
    ("cyan_terracotta", 11); ("purple_terracotta", 85); ("blue_terracotta", 1);
    ("brown_terracotta", 6); ("green_terracotta", 2); ("red_terracotta", 4);
    ("black_terracotta", 0); ("oak_planks", 70); ("spruce_planks", 6);
    ("birch_planks", 19); ("jungle_planks", 70); ("acacia_planks", 484);
    ("dark_oak_planks", 6); ("mangrove_planks", 4); ("cherry_planks", 13);
    ("bamboo_planks", 14); ("crimson_planks", 320); ("warped_planks", 11);
    ("oak_log", 70); ("spruce_log", 6); ("birch_log", 15);
    ("jungle_log", 70); ("acacia_log", 484); ("dark_oak_log", 6);
    ("mangrove_log", 70); ("cherry_log", 13); ("crimson_stem", 320);
    ("warped_stem", 11); ("bamboo_block", 14); ("oak_leaves", 2);
    ("spruce_leaves", 288); ("birch_leaves", 10); ("jungle_leaves", 2);
    ("acacia_leaves", 2); ("dark_oak_leaves", 288); ("mangrove_leaves", 2);
    ("cherry_leaves", 13); ("azalea_leaves", 2); ("flowering_azalea_leaves", 13);
    ("netherrack", 320); ("nether_bricks", 320); ("red_nether_bricks", 320);
    ("soul_sand", 6); ("soul_soil", 6); ("basalt", 8);
    ("smooth_basalt", 8); ("blackstone", 0); ("polished_blackstone", 0);
    ("polished_blackstone_bricks", 0); ("glowstone", 326); ("shroomlight", 326);
    ("nether_wart_block", 320); ("warped_wart_block", 11); ("crying_obsidian", 85);
    ("respawn_anchor", 0); ("end_stone", 326); ("end_stone_bricks", 326);
    ("purpur_block", 85); ("purpur_pillar", 85); ("obsidian", 0);
    ("bricks", 320); ("stone_bricks", 71); ("mossy_stone_bricks", 378);
    ("cracked_stone_bricks", 72); ("chiseled_stone_bricks", 71); ("prismarine", 11);
    ("prismarine_bricks", 11); ("dark_prismarine", 288); ("sea_lantern", 41);
    ("ice", 41); ("packed_ice", 41); ("blue_ice", 41);
    ("snow_block", 15); ("snow", 15); ("powder_snow", 15);
    ("clay", 71); ("mud", 6); ("mud_bricks", 6);
    ("packed_mud", 6); ("water", 73); ("lava", 25);
    ("fire", 25); ("soul_fire", 11); ("tnt", 4);
    ("bookshelf", 70); ("hay_block", 14); ("sponge", 14);
    ("wet_sponge", 14); ("melon", 10); ("pumpkin", 25);
    ("carved_pumpkin", 25); ("jack_o_lantern", 25); ("cactus", 288);
    ("bamboo", 10); ("moss_block", 10); ("moss_carpet", 10);
    ("sculk", 11); ("sculk_catalyst", 11); ("honeycomb_block", 14);
    ("honey_block", 14); ("slime_block", 27); ("deepslate", 72);
    ("cobbled_deepslate", 72); ("polished_deepslate", 72); ("deepslate_bricks", 72);
    ("deepslate_tiles", 72); ("chiseled_deepslate", 72); ("reinforced_deepslate", 72);
    ("tuff", 71); ("calcite", 15); ("dripstone_block", 19);
    ("quartz_block", 15); ("quartz_bricks", 15); ("quartz_pillar", 15);
    ("chiseled_quartz_block", 15); ("smooth_quartz", 15); ("oak_stairs", 70);
    ("spruce_stairs", 6); ("birch_stairs", 19); ("jungle_stairs", 70);
    ("acacia_stairs", 484); ("dark_oak_stairs", 6); ("mangrove_stairs", 70);
    ("cherry_stairs", 13); ("bamboo_stairs", 14); ("crimson_stairs", 320);
    ("warped_stairs", 11); ("stone_stairs", 71); ("cobblestone_stairs", 72);
    ("mossy_cobblestone_stairs", 378); ("stone_brick_stairs", 71); ("mossy_stone_brick_stairs", 378);
    ("granite_stairs", 25); ("polished_granite_stairs", 25); ("diorite_stairs", 7);
    ("polished_diorite_stairs", 7); ("andesite_stairs", 8); ("polished_andesite_stairs", 8);
    ("brick_stairs", 320); ("sandstone_stairs", 19); ("red_sandstone_stairs", 484);
    ("smooth_sandstone_stairs", 19); ("smooth_red_sandstone_stairs", 484); ("prismarine_stairs", 11);
    ("prismarine_brick_stairs", 11); ("dark_prismarine_stairs", 288); ("nether_brick_stairs", 320);
    ("red_nether_brick_stairs", 320); ("quartz_stairs", 15); ("smooth_quartz_stairs", 15);
    ("purpur_stairs", 85); ("end_stone_brick_stairs", 326); ("blackstone_stairs", 0);
    ("polished_blackstone_stairs", 0); ("polished_blackstone_brick_stairs", 0); ("deepslate_brick_stairs", 72);
    ("deepslate_tile_stairs", 72); ("cobbled_deepslate_stairs", 72); ("cut_copper_stairs", 484);
    ("exposed_cut_copper_stairs", 378); ("weathered_cut_copper_stairs", 10); ("oxidized_cut_copper_stairs", 11);
    ("mud_brick_stairs", 6); ("oak_slab", 70); ("spruce_slab", 6);
    ("birch_slab", 19); ("jungle_slab", 70); ("acacia_slab", 484);
    ("dark_oak_slab", 6); ("mangrove_slab", 70); ("cherry_slab", 13);
    ("bamboo_slab", 14); ("crimson_slab", 320); ("warped_slab", 11);
    ("stone_slab", 71); ("cobblestone_slab", 72); ("mossy_cobblestone_slab", 378);
    ("stone_brick_slab", 71); ("mossy_stone_brick_slab", 378); ("granite_slab", 25);
    ("polished_granite_slab", 25); ("diorite_slab", 7); ("polished_diorite_slab", 7);
    ("andesite_slab", 8); ("polished_andesite_slab", 8); ("brick_slab", 320);
    ("sandstone_slab", 19); ("red_sandstone_slab", 484); ("smooth_sandstone_slab", 19);
    ("smooth_red_sandstone_slab", 484); ("cut_sandstone_slab", 19); ("cut_red_sandstone_slab", 484);
    ("prismarine_slab", 11); ("prismarine_brick_slab", 11); ("dark_prismarine_slab", 288);
    ("nether_brick_slab", 320); ("red_nether_brick_slab", 320); ("quartz_slab", 15);
    ("smooth_quartz_slab", 15); ("purpur_slab", 85); ("end_stone_brick_slab", 326);
    ("blackstone_slab", 0); ("polished_blackstone_slab", 0); ("polished_blackstone_brick_slab", 0);
    ("deepslate_brick_slab", 72); ("deepslate_tile_slab", 72); ("cobbled_deepslate_slab", 72);
    ("cut_copper_slab", 484); ("exposed_cut_copper_slab", 378); ("weathered_cut_copper_slab", 10);
    ("oxidized_cut_copper_slab", 11); ("mud_brick_slab", 6); ("smooth_stone_slab", 71);
    ("glass_pane", 47); ("iron_bars", 72); ("white_stained_glass_pane", 47);
    ("orange_stained_glass_pane", 182); ("magenta_stained_glass_pane", 113); ("light_blue_stained_glass_pane", 41);
    ("yellow_stained_glass_pane", 46); ("lime_stained_glass_pane", 35); ("pink_stained_glass_pane", 113);
    ("gray_stained_glass_pane", 40); ("light_gray_stained_glass_pane", 40); ("cyan_stained_glass_pane", 41);
    ("purple_stained_glass_pane", 52); ("blue_stained_glass_pane", 33); ("brown_stained_glass_pane", 111);
    ("green_stained_glass_pane", 34); ("red_stained_glass_pane", 36); ("black_stained_glass_pane", 40)
  ]%string.

(** [color_data_blocks] of [get_brick_info]. *)
Definition color_data_blocks : list Z := [35; 95; 159; 160; 171; 251; 252].

(** ** Block classifier and colour resolver *)

(** The name stripping that [_block_name_to_id], [_is_skip_block] and
    [_get_color_from_block_name] each start with:
    the prefix [minecraft:] is removed, then everything from the first
    opening bracket on. *)
Definition strip_name (block_name : string) : string :=
  let name := Py.replace "minecraft:" EmptyString block_name in
  if Py.contains "[" name then hd EmptyString (Py.split "[" name) else name.

Definition _block_name_to_id (block_name : string) : Z :=
  let name := strip_name block_name in
  Py.dict_get_default name_to_id name 1.

Definition _is_skip_block (block_name : string) : bool :=
  let name := strip_name block_name in
  bool_decide (name ∈ skip_blocks).

Definition _get_color_from_block_name (block_name : string) : Z :=
  let name := strip_name block_name in
  let lookup_name :=
    if Py.contains "[" name then hd EmptyString (Py.split "[" name) else name in
  Py.dict_get_default block_to_color lookup_name 7.

(** [_parse_block_state]: base name and the [key=value] state properties. *)
Definition _parse_block_state (block_name : string) : string * list (string * string) :=
  let name := Py.replace "minecraft:" EmptyString block_name in
  if Py.contains "[" name then
    let base_name := nth 0 (Py.split "[" name) EmptyString in
    let props_str := Py.rstrip "]" (nth 1 (Py.split "[" name) EmptyString) in
    let properties :=
      fold_left
        (fun properties prop =>
           if Py.contains "=" prop then
             match Py.split1 "=" prop with
             | [key; value] => properties ++ [(key, value)]
             | _ => properties
             end
           else properties)
        (Py.split "," props_str) [] in
    (base_name, properties)
  else (name, []).

(** [_flip_rotation_y]: negate the second and third rows.  The values are
    read as integers, which is what the [rotations] table holds, and the
    string is split at single spaces, which is how the table separates them;
    [None] stands for the exception Python raises on a token that is not a
    number or on fewer than nine values. *)
Definition _flip_rotation_y (rotation_str : string) : option string :=
  match mapM Py.parse_int (Py.split " " rotation_str) with
  | Some vals =>
      if Z.of_nat (length vals) <? 9 then None
      else Some (Py.join " "
                   (map Py.str_int
                      (imap (fun i v => if (Nat.leb 3 i && Nat.ltb i 9)%bool then - v else v)
                            vals)))
  | None => None
  end.

(** The dict [_get_special_part_info] returns, one constructor per ["type"]. *)
Inductive special_info : Type :=
| StairInfo (part rotation : string) (y_offset : Z) (facing half : string)
| SlabInfo (part rotation : string) (y_offset : Z) (slab_type : string)
| CarpetInfo (part rotation : string) (y_offset : Z).

Definition si_part (si : special_info) : string :=
  match si with
  | StairInfo p _ _ _ _ | SlabInfo p _ _ _ | CarpetInfo p _ _ => p
  end.

Definition si_rotation (si : special_info) : string :=
  match si with
  | StairInfo _ r _ _ _ | SlabInfo _ r _ _ | CarpetInfo _ r _ => r
  end.

Definition si_y_offset (si : special_info) : Z :=
  match si with
  | StairInfo _ _ o _ _ | SlabInfo _ _ o _ | CarpetInfo _ _ o => o
  end.

Definition rotation_north : string := Py.dict_get_default rotations "north" EmptyString.

(** [_get_special_part_info]; the debug printing and its counters are left
    out.  [_flip_rotation_y] is only applied to entries of [rotations], on
    which it is defined ([flip_rotation_defined] below). *)
Definition _get_special_part_info (block_name : string) : option special_info :=
  let '(base_name, props) := _parse_block_state block_name in
  if Py.contains "stairs" base_name || Py.contains "stair" base_name then
    let facing := Py.dict_get_default props "facing" "north"%string in
    let half := Py.dict_get_default props "half" "bottom"%string in
    let rotation := Py.dict_get_default rotations facing rotation_north in
    let '(rotation, y_offset) :=
      if String.eqb half "top"
      then (default rotation (_flip_rotation_y rotation), 24)
      else (rotation, 0) in
    Some (StairInfo (Py.dict_get_default special_parts "stair" EmptyString)
                    rotation y_offset facing half)
  else if Py.contains "slab" base_name then
    let slab_type := Py.dict_get_default props "type" "bottom"%string in
    if String.eqb slab_type "double" then None
    else
      let y_offset := if String.eqb slab_type "top" then 0 else 16 in
      Some (SlabInfo (Py.dict_get_default special_parts "slab" EmptyString)
                     rotation_north y_offset slab_type)
  else if Py.contains "carpet" base_name then
    Some (CarpetInfo (Py.dict_get_default special_parts "slab" EmptyString)
                     rotation_north 16)
  else None.

(** [get_brick_info]: brick type and colour of a legacy block. *)
Definition get_brick_info (block_id data_value : Z) : string * Z :=
  let brick_type := default_brick in
  let color_id := Py.dict_get_default block_colors block_id 7 in
  let color_id :=
    if bool_decide (block_id ∈ color_data_blocks) && Py.dict_mem wool_color_mappings data_value
    then Py.dict_get_default wool_color_mappings data_value color_id
    else color_id in
  (brick_type, color_id).

(** ** Schematic decoder *)

(** Exceptions the loaders can raise. *)
Inductive py_error : Type :=
| KeyError (msg : string)
| TypeError
| ValueError.

Inductive py_result (A : Type) : Type :=
| Ok (a : A)
| Raise (e : py_error).
Arguments Ok {A} a.
Arguments Raise {A} e.

#[global] Instance result_ret : MRet py_result := fun A a => Ok a.

#[global] Instance result_bind : MBind py_result := fun A B k r =>
  match r with
  | Ok a => k a
  | Raise e => Raise e
  end.

(** The NBT tags the loaders look at: integer scalars, strings, byte
    arrays (signed bytes) and compounds (dicts in insertion order).  A tag
    of another kind than the one a loader expects is reported as
    [TypeError]. *)
#[warnings="-register-all"]
Inductive nbt : Type :=
| TagInt (n : Z)
| TagString (s : string)
| TagByteArray (bytes : list Z)
| TagCompound (entries : list (string * nbt)).

Definition compound : Type := list (string * nbt).

(** [d[k]]. *)
Definition item (d : compound) (k : string) : py_result nbt :=
  match Py.dict_get d k with
  | Some v => Ok v
  | None => Raise (KeyError k)
  end.

Definition as_int (t : nbt) : py_result Z :=
  match t with TagInt n => Ok n | _ => Raise TypeError end.

Definition as_compound (t : nbt) : py_result compound :=
  match t with TagCompound entries => Ok entries | _ => Raise TypeError end.

Definition as_bytes (t : nbt) : py_result (list Z) :=
  match t with TagByteArray bytes => Ok bytes | _ => Raise TypeError end.

(** What the converter keeps of a loaded schematic: the dimensions, the
    block ids (the flat array behind the [(height, length, width)] view),
    the legacy data values and the block names of the [.schem] format. *)
Record schematic : Type := {
  sd_width : Z;
  sd_height : Z;
  sd_length : Z;
  sd_blocks : list Z;
  sd_data : option (list Z);
  sd_block_names : option (list string)
}.

(** [a.reshape((height, length, width))] succeeds when the sizes agree;
    numpy infers a single dimension given as -1. *)
Definition reshape_ok (n height length width : Z) : bool :=
  if (0 <=? height) && (0 <=? length) && (0 <=? width) then height * length * width =? n
  else
    let unknown := List.filter (fun d => d =? -1) [height; length; width] in
    let known := List.filter (fun d => negb (d =? -1)) [height; length; width] in
    (Z.of_nat (List.length unknown) =? 1)
    && forallb (fun d => 0 <=? d) known
    && (0 <? fold_right Z.mul 1 known)
    && (n mod fold_right Z.mul 1 known =? 0).

(** [_load_schematic_format]: the legacy format. *)
Definition _load_schematic_format (nbt_file : compound) : py_result schematic :=
  width ← item nbt_file "Width" ≫= as_int;
  height ← item nbt_file "Height" ≫= as_int;
  length ← item nbt_file "Length" ≫= as_int;
  blocks ← item nbt_file "Blocks" ≫= as_bytes;
  let blocks := map unsigned_byte blocks in
  data ← (if Py.dict_mem nbt_file "Data"
          then d ← item nbt_file "Data" ≫= as_bytes; Ok (Some (map unsigned_byte d))
          else Ok None);
  if reshape_ok (Z.of_nat (List.length blocks)) height length width
  then Ok {| sd_width := width; sd_height := height; sd_length := length;
             sd_blocks := blocks; sd_data := data; sd_block_names := None |}
  else Raise ValueError.

(** Lines 539-566 of [_load_schem_format]: where the palette and the block
    data are looked for. *)
Definition find_palette_and_block_data (root : compound) : option nbt * option nbt :=
  let '(palette, block_data) :=
    match Py.dict_get root "Blocks" with
    | Some (TagCompound blocks_compound) =>
        (Py.dict_get blocks_compound "Palette", Py.dict_get blocks_compound "Data")
    | _ => (None, None)
    end in
  let palette :=
    match palette with
    | None => Py.dict_get root "Palette"
    | Some _ => palette
    end in
  let block_data :=
    match block_data with
    | None => Py.dict_get root "BlockData"
    | Some _ => block_data
    end in
  let palette :=
    match palette with
    | None =>
        match find (fun '(key, _) => String.eqb (Py.lower key) "palette") root with
        | Some (key, _) => Py.dict_get root key
        | None => None
        end
    | Some _ => palette
    end in
  (palette, block_data).

(** [root = nbt_file['Schematic'] if 'Schematic' in nbt_file else nbt_file]. *)
Definition schem_root (nbt_file : compound) : py_result compound :=
  if Py.dict_mem nbt_file "Schematic"
  then item nbt_file "Schematic" ≫= as_compound
  else Ok nbt_file.

(** [_load_schem_format]: the palette-based format. *)
Definition _load_schem_format (nbt_file : compound) : py_result schematic :=
  root ← schem_root nbt_file;
  width ← item root "Width" ≫= as_int;
  height ← item root "Height" ≫= as_int;
  length ← item root "Length" ≫= as_int;
  let '(palette, block_data) := find_palette_and_block_data root in
  palette ← match palette with
            | Some p => Ok p
            | None => Raise (KeyError "Could not find Palette in .schem file")
            end;
  block_data ← match block_data with
               | Some d => Ok d
               | None => Raise (KeyError "Could not find BlockData in .schem file")
               end;
  palette_items ← as_compound palette;
  index_to_block ←
    mapM (fun '(block_name, index) => i ← as_int index; Ok (i, block_name))
         palette_items;
  raw_data ← as_bytes block_data;
  let block_indices := _decode_varint_array raw_data (width * height * length) in
  let block_names :=
    map (fun idx => Py.dict_get_default index_to_block idx "minecraft:air"%string)
        block_indices in
  let blocks := map _block_name_to_id block_names in
  if reshape_ok (Z.of_nat (List.length blocks)) height length width
  then Ok {| sd_width := width; sd_height := height; sd_length := length;
             sd_blocks := blocks; sd_data := None; sd_block_names := Some block_names |}
  else Raise ValueError.

(** ** Part emitter *)

Definition identity_rotation : string := "1 0 0 0 1 0 0 0 1".

(** The f-string every placement line is written with:
    [1 <colour> <x> <y> <z> <rotation> <part>.dat], positions as [.2f]. *)
Definition ldraw_line (color_id : Z) (x y z : Q) (rotation brick_type : string) : string :=
  "1 " +:+ Py.str_int color_id +:+ " " +:+ Py.fmt2f x +:+ " " +:+ Py.fmt2f y
       +:+ " " +:+ Py.fmt2f z +:+ " " +:+ rotation +:+ " " +:+ brick_type +:+ ".dat".

(** [_emit_block_2x]: the parts of one block at scale 2; the count it
    returns is the number of lines. *)
Definition _emit_block_2x (base_x base_y base_z : Q) (color_id : Z)
    (special : option special_info) : list string :=
  let identity := identity_rotation in
  match special with
  | Some (StairInfo _ _ _ _ half) =>
      if String.eqb half "bottom" then
        [ ldraw_line color_id base_x (base_y + 24)%Q base_z identity "3003";
          ldraw_line color_id base_x (base_y + 16)%Q base_z identity "3022" ]
      else
        [ ldraw_line color_id base_x base_y base_z identity "3003";
          ldraw_line color_id base_x (base_y + 24)%Q base_z identity "3022" ]
  | Some (SlabInfo _ _ _ slab_type) =>
      if String.eqb slab_type "bottom" then
        [ ldraw_line color_id base_x (base_y + 24)%Q base_z identity "3003" ]
      else
        [ ldraw_line color_id base_x base_y base_z identity "3003" ]
  | Some (CarpetInfo _ _ _) =>
      [ ldraw_line color_id base_x (base_y + 40)%Q base_z identity "3022" ]
  | None =>
      [ ldraw_line color_id base_x base_y base_z identity "3003";
        ldraw_line color_id base_x (base_y + 24)%Q base_z identity "3003" ]
  end.

(** ** Grid access and voxel classification *)

(** A grid index [(y, z, x)]. *)
Definition cell : Type := Z * Z * Z.

(** [for i in range(n): s = body(i, s)]. *)
Definition for_range {S : Type} (n : Z) (body : Z -> S -> S) (s : S) : S :=
  foldl (fun s i => body i s) s (seqZ 0 n).

(** The triple loop [for y in range(height): for z in range(length):
    for x in range(width)]. *)
Definition for_yzx {S : Type} (height length width : Z)
    (body : Z -> Z -> Z -> S -> S) (s : S) : S :=
  for_range height
    (fun y => for_range length (fun z => for_range width (fun x => body y z x))) s.

(** [l[i]] for an index that is not negative. *)
Definition list_item {A : Type} (l : list A) (i : Z) : option A :=
  if i <? 0 then None else l !! Z.to_nat i.

(** [data_index = y * length * width + z * width + x]; it is also the
    position of [blocks[y, z, x]] in the flat array. *)
Definition data_index (sd : schematic) (y z x : Z) : Z :=
  y * sd_length sd * sd_width sd + z * sd_width sd + x.

(** [blocks[y, z, x]].  The loaders reshape the flat array to
    [(height, length, width)], so every index the loops reach is inside it. *)
Definition block_at (sd : schematic) (y z x : Z) : Z :=
  default 0 (list_item (sd_blocks sd) (data_index sd y z x)).

(** The colour resolution both conversion loops start with.  [None] is
    [continue] (air or a skipped block); otherwise the colour, and the block
    name when the schematic has one for the voxel. *)
Definition voxel_color (sd : schematic) (y z x : Z) : option (Z * option string) :=
  let block_id := block_at sd y z x in
  if block_id =? 0 then None
  else
    match sd_block_names sd with
    | Some block_names =>
        match list_item block_names (data_index sd y z x) with
        | Some block_name =>
            let color_id := _get_color_from_block_name block_name in
            if color_id =? -1 then None
            else if _is_skip_block block_name then None
            else Some (color_id, Some block_name)
        | None => Some (7, None)
        end
    | None =>
        let data_value :=
          match sd_data sd with
          | Some data => default 0 (list_item data (data_index sd y z x))
          | None => 0
          end in
        Some (snd (get_brick_info block_id data_value), None)
    end.

(** A placement region: the box of voxels one emission covers.  [Run] is a
    merged run of the greedy pass with its catalog part; [Voxel] is a single
    voxel, with the special part information when it has any. *)
Inductive region_kind : Type :=
| Run (brick_type : string)
| Voxel (special : option special_info).

Record region : Type := {
  r_y : Z;
  r_z : Z;
  r_x : Z;
  r_zlen : Z;
  r_xlen : Z;
  r_color : Z;
  r_kind : region_kind
}.

(** The lines written for a single voxel, by [_convert_standard] and by the
    final pass of [_convert_optimized]. *)
Definition emit_voxel (sd : schematic) (scale y z x color_id : Z)
    (special : option special_info) : list string :=
  let stud_size := 20 * scale in
  let brick_height := 24 * scale in
  let ldraw_x := ((inject_Z x - inject_Z (sd_width sd) / 2) * inject_Z stud_size)%Q in
  let ldraw_y := - y * brick_height in
  let ldraw_z := ((inject_Z z - inject_Z (sd_length sd) / 2) * inject_Z stud_size)%Q in
  if scale =? 2 then
    _emit_block_2x ldraw_x (inject_Z ldraw_y) ldraw_z color_id special
  else
    let '(brick_type, rotation, y_offset) :=
      match special with
      | Some si => (si_part si, si_rotation si, si_y_offset si)
      | None => (default_brick, identity_rotation, 0)
      end in
    [ ldraw_line color_id ldraw_x (inject_Z (ldraw_y + y_offset)) ldraw_z rotation brick_type ].

(** The lines written for a merged run by the greedy pass. *)
Definition emit_run (sd : schematic) (scale y z x best_z_len best_x_len color_id : Z)
    (brick_type : string) : list string :=
  if scale =? 2 then
    let stud_size := 20 * scale in
    let brick_height := 24 * scale in
    let center_x := (inject_Z x + inject_Z (best_x_len - 1) / 2)%Q in
    let ldraw_x := ((center_x - inject_Z (sd_width sd) / 2) * inject_Z stud_size)%Q in
    let ldraw_y := - y * brick_height in
    let ldraw_z := ((inject_Z z - inject_Z (sd_length sd) / 2) * inject_Z stud_size)%Q in
    [ ldraw_line color_id ldraw_x (inject_Z ldraw_y) ldraw_z identity_rotation brick_type;
      ldraw_line color_id ldraw_x (inject_Z (ldraw_y + 24)) ldraw_z identity_rotation brick_type ]
  else
    let center_x := (inject_Z x + inject_Z (best_x_len - 1) / 2)%Q in
    let center_z := (inject_Z z + inject_Z (best_z_len - 1) / 2)%Q in
    let ldraw_x := ((center_x - inject_Z (sd_width sd) / 2) * 20)%Q in
    let ldraw_y := - y * 24 in
    let ldraw_z := ((center_z - inject_Z (sd_length sd) / 2) * 20)%Q in
    [ ldraw_line color_id ldraw_x (inject_Z ldraw_y) ldraw_z identity_rotation brick_type ].

Definition emit_region (sd : schematic) (scale : Z) (r : region) : list string :=
  match r_kind r with
  | Run brick_type =>
      emit_run sd scale (r_y r) (r_z r) (r_x r) (r_zlen r) (r_xlen r) (r_color r) brick_type
  | Voxel special =>
      emit_voxel sd scale (r_y r) (r_z r) (r_x r) (r_color r) special
  end.

(** ** Identity strategy ([_convert_standard]) *)

(** The region of one iteration of the loop: none after [continue]. *)
Definition standard_voxel (sd : schematic) (y z x : Z) : list region :=
  match voxel_color sd y z x with
  | None => []
  | Some (color_id, block_name) =>
      let special :=
        match block_name with
        | Some name => if String.eqb name EmptyString then None
                       else _get_special_part_info name
        | None => None
        end in
      [ {| r_y := y; r_z := z; r_x := x; r_zlen := 1; r_xlen := 1;
           r_color := color_id; r_kind := Voxel special |} ]
  end.

Definition _convert_standard (sd : schematic) : list region :=
  for_yzx (sd_height sd) (sd_length sd) (sd_width sd)
    (fun y z x out => out ++ standard_voxel sd y z x) [].

(** ** Greedy strategy ([_convert_optimized]) *)

(** The analysis loop fills [color_grid] (initially -1 everywhere) and
    [special_blocks] (initially [False]); each cell is written at most once,
    in its own iteration, so the two arrays are these functions of the
    index. *)
Definition color_grid (sd : schematic) (y z x : Z) : Z :=
  match voxel_color sd y z x with
  | Some (color_id, _) => color_id
  | None => -1
  end.

Definition special_blocks (sd : schematic) (y z x : Z) : bool :=
  match voxel_color sd y z x with
  | Some (_, Some block_name) =>
      match _get_special_part_info block_name with Some _ => true | None => false end
  | _ => false
  end.

Definition scale2_x_lengths : list Z := [4; 3; 2; 1].
Definition scale2_brick_map : list (Z * string) :=
  [ (1, "3003"); (2, "3001"); (3, "2456"); (4, "3007") ]%string.
Definition x_lengths : list Z := [8; 6; 4; 3; 2; 1].

(** The state of the merge loops: the [used] array and the regions emitted
    so far. *)
Definition merge_state : Type := gset cell * list region.

(** [for dz in range(z_len): for dx in range(x_len): used[y, z + dz, x + dx] = True]. *)
Definition mark_used (y z x z_len x_len : Z) (used : gset cell) : gset cell :=
  for_range z_len
    (fun dz => for_range x_len (fun dx used => {[ (y, z + dz, x + dx) ]} ∪ used)) used.

(** The search [for x_len in lengths: ...; if valid: best_x_len = x_len; break]
    with [best_x_len = 1] when no length is valid. *)
Definition best_run (sd : schematic) (x : Z) (lengths : list Z) (ok : Z -> bool) : Z :=
  default 1
    (find (fun x_len =>
             negb (sd_width sd <? x + x_len)
             && forallb (fun dx => ok (x + dx)) (seqZ 0 x_len))
          lengths).

(** The body of the merge loop at scale 2: runs along X only, and the run
    stops at a special block. *)
Definition merge_cell_scale2 (sd : schematic) (y z x : Z) (st : merge_state) : merge_state :=
  let '(used, out) := st in
  let color_id := color_grid sd y z x in
  let best_x_len :=
    best_run sd x scale2_x_lengths
      (fun x' => negb (bool_decide ((y, z, x') ∈ used)
                       || negb (color_grid sd y z x' =? color_id)
                       || special_blocks sd y z x')) in
  let used := mark_used y z x 1 best_x_len used in
  let brick_type := Py.dict_get_default scale2_brick_map best_x_len default_brick in
  (used, out ++ [ {| r_y := y; r_z := z; r_x := x; r_zlen := 1; r_xlen := best_x_len;
                     r_color := color_id; r_kind := Run brick_type |} ]).

(** The body of the merge loop at scale 1: the longest run along X, then
    one more row along Z when it fits. *)
Definition merge_cell_scale1 (sd : schematic) (y z x : Z) (st : merge_state) : merge_state :=
  let '(used, out) := st in
  let color_id := color_grid sd y z x in
  let best_x_len :=
    best_run sd x x_lengths
      (fun x' => negb (bool_decide ((y, z, x') ∈ used)
                       || negb (color_grid sd y z x' =? color_id))) in
  let best_z_len :=
    if (z + 1 <? sd_length sd) && (2 <=? best_x_len)
       && forallb (fun dx => negb (bool_decide ((y, z + 1, x + dx) ∈ used)
                                   || negb (color_grid sd y (z + 1) (x + dx) =? color_id)))
                  (seqZ 0 best_x_len)
       && Py.dict_mem brick_sizes (2, best_x_len)
    then 2 else 1 in
  let '(brick_type, best_x_len, best_z_len) :=
    match Py.dict_get brick_sizes (best_z_len, best_x_len) with
    | Some part => (part, best_x_len, best_z_len)
    | None => (default_brick, 1, 1)
    end in
  let used := mark_used y z x best_z_len best_x_len used in
  (used, out ++ [ {| r_y := y; r_z := z; r_x := x; r_zlen := best_z_len;
                     r_xlen := best_x_len; r_color := color_id;
                     r_kind := Run brick_type |} ]).

Definition merge_cell (sd : schematic) (scale y z x : Z) (st : merge_state) : merge_state :=
  if bool_decide ((y, z, x) ∈ st.1) || (color_grid sd y z x =? -1) || special_blocks sd y z x
  then st
  else if scale =? 2 then merge_cell_scale2 sd y z x st
  else merge_cell_scale1 sd y z x st.

(** The body of the final loop over the special blocks. *)
Definition special_cell (sd : schematic) (y z x : Z) (st : merge_state) : merge_state :=
  let '(used, out) := st in
  if bool_decide ((y, z, x) ∈ used) || negb (special_blocks sd y z x)
     || (color_grid sd y z x =? -1)
  then st
  else
    let block_name :=
      match sd_block_names sd with
      | Some block_names => list_item block_names (data_index sd y z x)
      | None => None
      end in
    match block_name with
    | None => st
    | Some name =>
        if String.eqb name EmptyString then st
        else
          match _get_special_part_info name with
          | None => st
          | Some special_info =>
              ({[ (y, z, x) ]} ∪ used,
               out ++ [ {| r_y := y; r_z := z; r_x := x; r_zlen := 1; r_xlen := 1;
                           r_color := color_grid sd y z x;
                           r_kind := Voxel (Some special_info) |} ])
          end
    end.

Definition merge_pass (sd : schematic) (scale : Z) : merge_state :=
  for_yzx (sd_height sd) (sd_length sd) (sd_width sd) (merge_cell sd scale) (∅, []).

Definition _convert_optimized (sd : schematic) (scale : Z) : list region :=
  (for_yzx (sd_height sd) (sd_length sd) (sd_width sd) (special_cell sd)
     (merge_pass sd scale)).2.

(** ** [convert_to_ldraw] *)

Definition newline : string := String (ascii_of_nat 10) EmptyString.

Definition header_lines (optimize : bool) (scale : Z) : list string :=
  [ "0 Jonathan Rothberg's MineCraft to LEGO converter";
    "0 Name: Converted from Minecraft";
    "0 Author: Jonathan Rothberg" ]%string
  ++ (if optimize then [ "0 Optimized: Yes (merged bricks)"%string ] else [])
  ++ (if 1 <? scale
      then [ "0 Scale: " +:+ Py.str_int scale +:+ "x (each MC block = "
               +:+ Py.str_int scale +:+ " studs)" ]
      else [])
  ++ [ EmptyString ].

Definition convert_regions (sd : schematic) (optimize : bool) (scale : Z) : list region :=
  if optimize then _convert_optimized sd scale else _convert_standard sd.

(** The placement lines, one or two per region; [brick_count] is their number. *)
Definition placement_lines (sd : schematic) (optimize : bool) (scale : Z) : list string :=
  flat_map (emit_region sd scale) (convert_regions sd optimize scale).

Definition ldraw_lines (sd : schematic) (optimize : bool) (scale : Z) : list string :=
  header_lines optimize scale ++ placement_lines sd optimize scale.

Definition convert_to_ldraw (sd : schematic) (optimize : bool) (scale : Z) : string :=
  Py.join newline (ldraw_lines sd optimize scale).

(** A [.schem] grid as [_load_schem_format] builds it from the decoded
    block names. *)
Definition schem_grid (width height length : Z) (block_names : list string) : schematic :=
  {| sd_width := width; sd_height := height; sd_length := length;
     sd_blocks := map _block_name_to_id block_names;
     sd_data := None; sd_block_names := Some block_names |}.

(** A legacy grid as [_load_schematic_format] builds it. *)
Definition legacy_grid (width height length : Z) (blocks : list Z)
    (data : option (list Z)) : schematic :=
  {| sd_width := width; sd_height := height; sd_length := length;
     sd_blocks := map unsigned_byte blocks;
     sd_data := map unsigned_byte <$> data; sd_block_names := None |}.

(** ** Rotation matrices as values *)

(** The nine numbers of a rotation string, row by row. *)
Definition rotation_values (rotation_str : string) : option (list Z) :=
  mapM Py.parse_int (Py.split " " rotation_str).

Definition mat_entry (m : list Z) (i j : nat) : Z := nth (3 * i + j) m 0.

Definition mat_transpose (m : list Z) : list Z :=
  i ← [0; 1; 2]%nat; j ← [0; 1; 2]%nat; [mat_entry m j i].

Definition mat_mul (a b : list Z) : list Z :=
  i ← [0; 1; 2]%nat; j ← [0; 1; 2]%nat;
  [mat_entry a i 0 * mat_entry b 0 j + mat_entry a i 1 * mat_entry b 1 j
   + mat_entry a i 2 * mat_entry b 2 j].

Definition mat_det (m : list Z) : Z :=
  mat_entry m 0 0 * (mat_entry m 1 1 * mat_entry m 2 2 - mat_entry m 1 2 * mat_entry m 2 1)
  - mat_entry m 0 1 * (mat_entry m 1 0 * mat_entry m 2 2 - mat_entry m 1 2 * mat_entry m 2 0)
  + mat_entry m 0 2 * (mat_entry m 1 0 * mat_entry m 2 1 - mat_entry m 1 1 * mat_entry m 2 0).

Definition mat_identity : list Z := [1; 0; 0; 0; 1; 0; 0; 0; 1].

(** A proper rotation: nine entries, orthogonal, determinant 1. *)
Definition is_rotation (m : list Z) : Prop :=
  length m = 9%nat ∧ mat_mul m (mat_transpose m) = mat_identity ∧ mat_det m = 1.

(** The matrix with its second and third rows negated. *)
Definition negate_rows_2_3 (m : list Z) : list Z :=
  imap (fun i v => if (Nat.leb 3 i)%nat then - v else v) m.

(** ** Regions as sets of voxels *)

(** The cells of the grid in scan order: Y outermost, then Z, then X. *)
Definition grid_cells (height length width : Z) : list cell :=
  y ← seqZ 0 height; z ← seqZ 0 length; x ← seqZ 0 width; [(y, z, x)].

Definition in_grid (sd : schematic) (c : cell) : Prop :=
  0 ≤ c.1.1 < sd_height sd ∧ 0 ≤ c.1.2 < sd_length sd ∧ 0 ≤ c.2 < sd_width sd.

#[global] Instance in_grid_dec (sd : schematic) (c : cell) : Decision (in_grid sd c).
Proof. unfold in_grid. apply _. Defined.

(** A voxel is skipped when the conversion loops [continue] on it: air, or
    a block of the skip set. *)
Definition is_skipped (sd : schematic) (c : cell) : bool :=
  match voxel_color sd c.1.1 c.1.2 c.2 with
  | None => true
  | Some _ => false
  end.

(** The region [r] covers the cell [c]. *)
Definition covers (r : region) (c : cell) : bool :=
  (r_y r =? c.1.1)
  && (r_z r <=? c.1.2) && (c.1.2 <? r_z r + r_zlen r)
  && (r_x r <=? c.2) && (c.2 <? r_x r + r_xlen r).

(** The number of regions of [rs] that cover [c]. *)
Definition cover_count (c : cell) (rs : list region) : nat :=
  length (List.filter (fun r => covers r c) rs).

(** ** The fields of the placement lines *)

(** The character [sep] does not occur in [s]. *)
Fixpoint lacks (sep : ascii) (s : string) : bool :=
  match s with
  | EmptyString => true
  | String c s' => negb (Ascii.eqb c sep) && lacks sep s'
  end.

(** The rotation strings a line can carry: the table and its flips. *)
Definition rotation_strings : list string :=
  map snd rotations ++ omap _flip_rotation_y (map snd rotations).

(** The part numbers a line can carry. *)
Definition part_ids : list string :=
  default_brick :: map snd brick_sizes ++ map snd scale2_brick_map
    ++ map snd special_parts ++ [ "3003"; "3022" ]%string.

(** A region carries a catalog part, or the special part information of
    some block name. *)
Definition region_wf (r : region) : Prop :=
  match r_kind r with
  | Run brick_type => brick_type ∈ part_ids
  | Voxel None => True
  | Voxel (Some si) => ∃ block_name, _get_special_part_info block_name = Some si
  end.

(** ** Invariant of the merge loops *)

(** The invariant of the two merge loops: a cell is covered by one region
    when it is marked used and by none otherwise, only cells of the grid that
    hold a block to convert are marked, and a region has the colour of the
    cells it covers. *)
Definition merge_invariant (sd : schematic) (st : merge_state) : Prop :=
  (∀ c, cover_count c st.2 = if bool_decide (c ∈ st.1) then 1%nat else 0%nat)
  ∧ (∀ c, c ∈ st.1 → in_grid sd c ∧ color_grid sd c.1.1 c.1.2 c.2 ≠ -1)
  ∧ Forall (fun r => ∀ c, covers r c = true → r_color r = color_grid sd c.1.1 c.1.2 c.2)
           st.2.

(** The cells of a box are inside the grid, hold a block of the colour
    [color_id] and are unused. *)
Definition free_box (sd : schematic) (used : gset cell) (y z x z_len x_len color_id : Z)
  : Prop :=
  1 ≤ z_len ∧ 1 ≤ x_len ∧ color_id ≠ -1
  ∧ ∀ z' x', z ≤ z' < z + z_len → x ≤ x' < x + x_len →
      ((y, z', x') ∉ used) ∧ in_grid sd (y, z', x') ∧ color_grid sd y z' x' = color_id.

(** ** Shape of the regions of the greedy merge *)

(** The first cell of a region in scan order. *)
Definition region_origin (r : region) : cell := (r_y r, r_z r, r_x r).

(** A region has extents and a part that go together.  At scale 2 a run is
    one row of at most four voxels, and its part is the entry of
    [scale2_brick_map] for its length; at the other scales it is one or two
    rows of a catalog length, and its part is the entry of [brick_sizes] for
    its extents.  A region of the special pass is one voxel and carries
    special part information. *)
Definition region_fits (scale : Z) (r : region) : Prop :=
  match r_kind r with
  | Run brick_type =>
      if scale =? 2
      then r_zlen r = 1 ∧ r_xlen r ∈ scale2_x_lengths
           ∧ Py.dict_get scale2_brick_map (r_xlen r) = Some brick_type
      else r_zlen r ∈ [1; 2] ∧ r_xlen r ∈ x_lengths
           ∧ Py.dict_get brick_sizes (r_zlen r, r_xlen r) = Some brick_type
  | Voxel special => r_zlen r = 1 ∧ r_xlen r = 1 ∧ is_Some special
  end.

(** The box of a region lies inside the grid. *)
Definition region_inside (sd : schematic) (r : region) : Prop :=
  0 ≤ r_y r < sd_height sd
  ∧ 0 ≤ r_z r ∧ r_z r + r_zlen r ≤ sd_length sd
  ∧ 0 ≤ r_x r ∧ r_x r + r_xlen r ≤ sd_width sd.

(** ** The palette rule in the words of the specification *)

(** An entry of the [Blocks] substructure, when the root has one. *)
Definition blocks_entry (root : compound) (k : string) : option nbt :=
  match Py.dict_get root "Blocks" with
  | Some (TagCompound blocks_compound) => Py.dict_get blocks_compound k
  | _ => None
  end.

(** The value of the first root key that is [palette] up to case. *)
Definition palette_any_case (root : compound) : option nbt :=
  match find (fun '(key, _) => String.eqb (Py.lower key) "palette") root with
  | Some (key, _) => Py.dict_get root key
  | None => None
  end.

(** The rule as the specification words it: (1) a [Blocks] substructure
    that holds both [Palette] and [Data] gives the two; (2) otherwise the
    root-level [Palette] and [BlockData] are used; (3) with no root-level
    [Palette], a root key that is [palette] up to case. *)
Definition spec_find_palette_and_block_data (root : compound) : option nbt * option nbt :=
  match blocks_entry root "Palette", blocks_entry root "Data" with
  | Some palette, Some block_data => (Some palette, Some block_data)
  | _, _ =>
      (match Py.dict_get root "Palette" with
       | Some palette => Some palette
       | None => palette_any_case root
       end,
       Py.dict_get root "BlockData")
  end.

(** ** Truncated varint streams *)

(** A byte with the continuation bit set. *)
Definition continues (b : Z) : bool := negb (Z.land (unsigned_byte b) 128 =? 0).

(** The stream stops where a value stops: it is empty or its last byte has
    no continuation bit. *)
Definition ends_on_boundary (data : list Z) : bool :=
  match list.last data with
  | Some b => negb (continues b)
  | None => true
  end.

(** What the inner loop has accumulated when the data run out in the
    middle of a value. *)
Definition partial_value (tail : list Z) : Z := fst (read_varint tail 0 0).

(** ** The value of a group of varint bytes *)

(** The number a group of bytes stands for: seven bits a byte, the least
    significant group first. *)
Fixpoint group_value (group : list Z) : Z :=
  match group with
  | [] => 0
  | b :: rest => unsigned_byte b mod 128 + 128 * group_value rest
  end.

(** ** Reading a placement line back *)

(** The whitespace-separated fields of a line. *)
Definition line_tokens (line : string) : list string := Py.split " " line.

(** Fields 6 to 14 of a placement line: the rotation. *)
Definition line_rotation (line : string) : string :=
  Py.join " " (take 9 (drop 5 (line_tokens line))).

(** The number of characters after the decimal point of a field. *)
Definition decimals (token : string) : nat :=
  match Py.split "." token with
  | [_; frac] => String.length frac
  | _ => 0
  end.

(** * Properties *)

(** ** Rotation table *)

Lemma flip_rotation_defined (facing : string) :
  is_Some (_flip_rotation_y (Py.dict_get_default rotations facing rotation_north)).
Proof.
  unfold Py.dict_get_default.
  assert (H : Forall (fun p => is_Some (_flip_rotation_y p.2)) rotations).
  { repeat constructor; vm_compute; eauto. }
  assert (Hn : is_Some (_flip_rotation_y rotation_north)) by (vm_compute; eauto).
  revert H. generalize rotations. intros d Hd.
  destruct (Py.dict_get d facing) as [r|] eqn:E; [|exact Hn].
  induction d as [|[k v] d IH]; simpl in E; [discriminate|].
  inversion Hd; subst.
  destruct (Py.dict_get d facing) eqn:E'.
  - inversion E; subst. apply IH; auto.
  - destruct (decide (facing = k)); [|discriminate]. inversion E; subst. assumption.
Qed.

(** C7: the four facing matrices are pairwise distinct, each one is
    orthogonal with determinant 1, north is the identity, the flip for
    [half=top] negates the second and third rows, and flipping twice gives
    the original rotation back. *)
Theorem C7_facing_rotations :
  map fst rotations = ["north"; "east"; "south"; "west"]%string
  ∧ NoDup (map snd rotations)
  ∧ rotation_values (Py.dict_get_default rotations "north" EmptyString) = Some mat_identity
  ∧ Forall (fun r =>
              ∃ m, rotation_values r = Some m
                   ∧ is_rotation m
                   ∧ (_flip_rotation_y r ≫= rotation_values) = Some (negate_rows_2_3 m)
                   ∧ (_flip_rotation_y r ≫= _flip_rotation_y) = Some r)
           (map snd rotations).
Proof.
  split; [reflexivity|].
  split; [apply (bool_decide_unpack _); vm_compute; reflexivity|].
  split; [vm_compute; reflexivity|].
  repeat constructor.
  - exists [1; 0; 0; 0; 1; 0; 0; 0; 1]. repeat split; vm_compute; reflexivity.
  - exists [0; 0; -1; 0; 1; 0; 1; 0; 0]. repeat split; vm_compute; reflexivity.
  - exists [-1; 0; 0; 0; 1; 0; 0; 0; -1]. repeat split; vm_compute; reflexivity.
  - exists [0; 0; 1; 0; 1; 0; -1; 0; 0]. repeat split; vm_compute; reflexivity.
Qed.

(** ** Legacy colours *)

(** C9: for a block id of the dye-override set and a data value present in
    the dye table, the colour is the dye table's, whatever the id-based
    colour is; for wool (id 35, id-based colour white 15) with data value 4
    it is yellow, 14. *)
Theorem C9_dye_table_overrides_id_color (block_id data_value color : Z) :
  block_id ∈ color_data_blocks →
  Py.dict_get wool_color_mappings data_value = Some color →
  get_brick_info block_id data_value = (default_brick, color)
  ∧ get_brick_info 35 4 = (default_brick, 14)
  ∧ Py.dict_get block_colors 35 = Some 15
  ∧ length wool_color_mappings = 16%nat.
Proof.
  intros Hid Hdv. split.
  - unfold get_brick_info, Py.dict_mem, Py.dict_get_default.
    rewrite Hdv. rewrite bool_decide_eq_true_2 by assumption. reflexivity.
  - vm_compute. repeat split; reflexivity.
Qed.

(** The override at wool with data value 4. *)
Lemma C9_dye_table_witness :
  35 ∈ color_data_blocks
  ∧ Py.dict_get wool_color_mappings 4 = Some 14
  ∧ get_brick_info 35 4 = (default_brick, 14).
Proof.
  split; [apply (bool_decide_unpack _); vm_compute; reflexivity|].
  split; [vm_compute; reflexivity|].
  refine (proj1 (C9_dye_table_overrides_id_color 35 4 14 _ _)).
  - apply (bool_decide_unpack _); vm_compute; reflexivity.
  - vm_compute; reflexivity.
Defined.

(** ** Scenarios *)

(** C8: a row of four oak planks along X, merged at scale 1, is one region
    of length 4, emitted as one line with the 1x4 brick of the catalog at
    the centre of the run: x is (the mean of the first and last voxel minus
    half the width) times 20. *)
Theorem C8_row_of_four_planks :
  let planks := "minecraft:oak_planks"%string in
  let sd := schem_grid 4 1 1 [planks; planks; planks; planks] in
  convert_regions sd true 1
    = [ {| r_y := 0; r_z := 0; r_x := 0; r_zlen := 1; r_xlen := 4; r_color := 70;
           r_kind := Run "3010" |} ]
  ∧ Py.dict_get brick_sizes (1, 4) = Some "3010"%string
  ∧ placement_lines sd true 1 = [ "1 70 -10.00 0.00 -10.00 1 0 0 0 1 0 0 0 1 3010.dat"%string ]
  ∧ Py.fmt2f (((0 + 3) / 2 - 4 / 2) * 20)%Q = "-10.00"%string
  ∧ Py.fmt2f ((0 - 1 / 2) * 20)%Q = "-10.00"%string.
Proof. vm_compute. repeat split; reflexivity. Qed.

(** C4 (as amended): the stair [oak_stairs[facing=east,half=top]] at
    scale 2 gives two stacked lines, the 2x2 brick at the top of the cell
    and the 2x2 plate 24 units below it (the other way round for
    [half=bottom]), both with the identity rotation; the east matrix with
    rows 2 and 3 negated is what [_get_special_part_info] computes and what
    the single line of scale 1 carries. *)
Theorem C4_stair_at_scale_2 (optimize : bool) :
  let top := "minecraft:oak_stairs[facing=east,half=top]"%string in
  let bottom := "minecraft:oak_stairs[facing=east,half=bottom]"%string in
  placement_lines (schem_grid 1 1 1 [top]) optimize 2
    = [ "1 70 -20.00 0.00 -20.00 1 0 0 0 1 0 0 0 1 3003.dat";
        "1 70 -20.00 24.00 -20.00 1 0 0 0 1 0 0 0 1 3022.dat" ]%string
  ∧ Forall (fun line => line_rotation line = identity_rotation)
           (placement_lines (schem_grid 1 1 1 [top]) optimize 2)
  ∧ placement_lines (schem_grid 1 1 1 [bottom]) optimize 2
    = [ "1 70 -20.00 24.00 -20.00 1 0 0 0 1 0 0 0 1 3003.dat";
        "1 70 -20.00 16.00 -20.00 1 0 0 0 1 0 0 0 1 3022.dat" ]%string
  ∧ (si_rotation <$> _get_special_part_info top)
    = _flip_rotation_y (Py.dict_get_default rotations "east" EmptyString)
  ∧ map line_rotation (placement_lines (schem_grid 1 1 1 [top]) optimize 1)
    = [ "0 0 -1 0 -1 0 -1 0 0"%string ].
Proof.
  destruct optimize; vm_compute; repeat split; repeat constructor.
Qed.

(** The two lines of the stair at scale 2 do not carry the flipped east
    matrix. *)
Lemma C4_counterexample :
  let top := "minecraft:oak_stairs[facing=east,half=top]"%string in
  let lines := placement_lines (schem_grid 1 1 1 [top]) false 2 in
  ¬ (length lines = 2%nat
     ∧ Forall (fun line =>
                 Some (line_rotation line)
                 = _flip_rotation_y (Py.dict_get_default rotations "east" EmptyString))
              lines).
Proof.
  intros top lines [_ H]. apply Forall_inv in H. vm_compute in H. discriminate H.
Qed.

(** C1 (the code at the failing input): at scale 1 the run that starts at a
    plank takes in the stair next to it, which has the same colour, and the
    stair gets no region of its own; at scale 2 the run stops before the
    stair, which the final pass emits with its special part information. *)
Theorem C1_special_voxel_in_run_at_scale_1 :
  let planks := "minecraft:oak_planks"%string in
  let stairs := "minecraft:oak_stairs[facing=east,half=bottom]"%string in
  let sd := schem_grid 2 1 1 [planks; stairs] in
  special_blocks sd 0 0 1 = true
  ∧ _convert_optimized sd 1
    = [ {| r_y := 0; r_z := 0; r_x := 0; r_zlen := 1; r_xlen := 2; r_color := 70;
           r_kind := Run "3004" |} ]
  ∧ _convert_optimized sd 2
    = [ {| r_y := 0; r_z := 0; r_x := 0; r_zlen := 1; r_xlen := 1; r_color := 70;
           r_kind := Run "3003" |};
        {| r_y := 0; r_z := 0; r_x := 1; r_zlen := 1; r_xlen := 1; r_color := 70;
           r_kind := Voxel (Some (StairInfo "54200" "0 0 -1 0 1 0 1 0 0" 0 "east" "bottom")) |} ].
Proof. vm_compute. repeat split; reflexivity. Qed.

(** ** Varint codec *)

Lemma read_varint_all_continue (tail : list Z) (value shift : Z) :
  Forall (fun b => continues b = true) tail →
  snd (read_varint tail value shift) = [].
Proof.
  intros H. revert value shift.
  induction H as [|b tail Hb _ IH]; intros value shift; simpl; [reflexivity|].
  unfold continues in Hb. apply negb_true_iff in Hb. rewrite Hb. apply IH.
Qed.

Lemma ends_on_boundary_cons (b : Z) (rest : list Z) :
  continues b = true → ends_on_boundary (b :: rest) = true →
  rest ≠ [] ∧ ends_on_boundary rest = true.
Proof.
  unfold ends_on_boundary. destruct rest as [|c rest]; simpl.
  - intros ->. discriminate.
  - intros _ H. split; [discriminate|exact H].
Qed.

Lemma read_varint_app (pre tail : list Z) (value shift : Z) :
  pre ≠ [] → ends_on_boundary pre = true →
  read_varint (pre ++ tail) value shift
  = (fst (read_varint pre value shift), snd (read_varint pre value shift) ++ tail).
Proof.
  revert value shift. induction pre as [|b rest IH]; intros value shift Hne Hb; [done|].
  simpl. destruct (Z.land (unsigned_byte b) 128 =? 0) eqn:E; [reflexivity|].
  destruct (ends_on_boundary_cons b rest) as [Hne' Hb']; auto.
  { unfold continues. rewrite E. reflexivity. }
Qed.

Lemma read_varint_rest_boundary (pre : list Z) (value shift : Z) :
  ends_on_boundary pre = true →
  ends_on_boundary (snd (read_varint pre value shift)) = true.
Proof.
  revert value shift. induction pre as [|b rest IH]; intros value shift Hb; [done|].
  simpl. destruct (Z.land (unsigned_byte b) 128 =? 0) eqn:E; simpl.
  - destruct rest as [|c rest]; [reflexivity|exact Hb].
  - apply IH. apply (ends_on_boundary_cons b rest); auto.
    unfold continues. rewrite E. reflexivity.
Qed.

Lemma read_varint_rest_shorter (data : list Z) (value shift : Z) :
  (length (snd (read_varint data value shift)) ≤ length data)%nat.
Proof.
  revert value shift. induction data as [|c d IH]; intros value shift; simpl; [lia|].
  destruct (Z.land (unsigned_byte c) 128 =? 0); simpl; [lia|].
  specialize (IH (Z.lor value (Z.shiftl (Z.land (unsigned_byte c) 127) shift)) (shift + 7)).
  lia.
Qed.

Lemma read_varint_consumes (b : Z) (rest : list Z) (value shift : Z) :
  (length (snd (read_varint (b :: rest) value shift)) ≤ length rest)%nat.
Proof.
  simpl. destruct (Z.land (unsigned_byte b) 128 =? 0); simpl; [lia|].
  apply read_varint_rest_shorter.
Qed.

Lemma decode_varint_loop_length (data : list Z) (n : Z) (result : list Z) :
  Z.of_nat (length (decode_varint_loop data n result)) ≤ Z.max (Z.of_nat (length result)) n
  ∧ (length (decode_varint_loop data n result) ≤ length result + length data)%nat.
Proof.
  funelim (decode_varint_loop data n result); simp decode_varint_loop.
  - lia.
  - destruct (Z.of_nat (length result) <? expected_length) eqn:E; [|cbn [length]; lia].
    apply Z.ltb_lt in E. destruct H as [H1 H2].
    rewrite length_app in H1, H2. cbn [length] in H1, H2 |- *.
    pose proof (read_varint_consumes b rest 0 0) as Hlt.
    split; lia.
Qed.

Lemma decode_varint_loop_truncated (pre tail : list Z) (n : Z) (result : list Z) :
  ends_on_boundary pre = true → tail ≠ [] → Forall (fun b => continues b = true) tail →
  decode_varint_loop (pre ++ tail) n result
  = if Z.of_nat (length (decode_varint_loop pre n result)) <? n
    then decode_varint_loop pre n result ++ [partial_value tail]
    else decode_varint_loop pre n result.
Proof.
  intros Hb Hne Hall. revert Hb.
  funelim (decode_varint_loop pre n result); intros Hb; simp decode_varint_loop.
  - simpl. destruct tail as [|t ts]; [done|]. simp decode_varint_loop.
    destruct (Z.of_nat (length result) <? expected_length) eqn:E; [|reflexivity].
    rewrite read_varint_all_continue by assumption. simp decode_varint_loop.
    reflexivity.
  - change ((b :: rest) ++ tail) with (b :: (rest ++ tail)). simp decode_varint_loop.
    destruct (Z.of_nat (length result) <? expected_length) eqn:E.
    + change (b :: (rest ++ tail)) with ((b :: rest) ++ tail).
      rewrite read_varint_app by (auto; discriminate). cbn [fst snd].
      apply H; auto. apply read_varint_rest_boundary. exact Hb.
    + rewrite E. reflexivity.
Qed.

(** C3 (as amended): decoding is total, yields at most [expected_length]
    values and at most one value per byte; when the stream is cut in the
    middle of a value, the values before the cut are decoded as without the
    tail, and, if fewer than [expected_length] of them were found, the bits
    read from the cut value are appended as one more value. *)
Theorem C3_truncated_value_is_appended (pre tail : list Z) (n : Z) :
  ends_on_boundary pre = true → tail ≠ [] → Forall (fun b => continues b = true) tail →
  Z.of_nat (length (_decode_varint_array (pre ++ tail) n)) ≤ Z.max 0 n
  ∧ (length (_decode_varint_array (pre ++ tail) n) ≤ length (pre ++ tail))%nat
  ∧ _decode_varint_array (pre ++ tail) n
    = if Z.of_nat (length (_decode_varint_array pre n)) <? n
      then _decode_varint_array pre n ++ [partial_value tail]
      else _decode_varint_array pre n.
Proof.
  intros Hb Hne Hall. unfold _decode_varint_array.
  pose proof (decode_varint_loop_length (pre ++ tail) n []) as [H1 H2].
  simpl in H1, H2. repeat split; [lia|lia|].
  apply decode_varint_loop_truncated; assumption.
Qed.

(** The stream [5, 0x81]: one whole value and one cut after its first byte. *)
Lemma C3_truncated_value_witness :
  ends_on_boundary [5] = true
  ∧ _decode_varint_array ([5] ++ [129]) 2 = [5; 1]
  ∧ _decode_varint_array ([5] ++ [129]) 1 = [5].
Proof.
  split; [reflexivity|].
  pose proof (C3_truncated_value_is_appended [5] [129] 2) as H2.
  pose proof (C3_truncated_value_is_appended [5] [129] 1) as H1.
  split.
  - refine (proj2 (proj2 (H2 _ _ _))); [reflexivity|discriminate|repeat constructor].
  - refine (proj2 (proj2 (H1 _ _ _))); [reflexivity|discriminate|repeat constructor].
Defined.

(** With room for two values, the cut value of [5, 0x81] is not dropped. *)
Lemma C3_counterexample :
  ends_on_boundary [5] = true
  ∧ Forall (fun b => continues b = true) [129]
  ∧ _decode_varint_array ([5] ++ [129]) 2 = [5; 1]
  ∧ _decode_varint_array ([5] ++ [129]) 2 ≠ _decode_varint_array [5] 2.
Proof.
  split; [reflexivity|]. split; [repeat constructor|]. split; [reflexivity|].
  vm_compute. discriminate.
Qed.

(** ** Palette resolution of the [.schem] loader *)

Lemma find_palette_and_block_data_eq (root : compound) :
  find_palette_and_block_data root
  = (match blocks_entry root "Palette" with
     | Some palette => Some palette
     | None =>
         match Py.dict_get root "Palette" with
         | Some palette => Some palette
         | None => palette_any_case root
         end
     end,
     match blocks_entry root "Data" with
     | Some block_data => Some block_data
     | None => Py.dict_get root "BlockData"
     end).
Proof.
  unfold find_palette_and_block_data, blocks_entry, palette_any_case.
  destruct (Py.dict_get root "Blocks") as [[n|s|bs|blocks_compound]|]; simpl;
    try (destruct (Py.dict_get root "Palette"); reflexivity).
  destruct (Py.dict_get blocks_compound "Palette"), (Py.dict_get blocks_compound "Data");
    simpl; try reflexivity;
    destruct (Py.dict_get root "Palette"); reflexivity.
Qed.

(** C5 (as amended): the palette and the block data are looked for
    independently.  The palette is the [Palette] entry of a [Blocks]
    substructure, else the root-level [Palette], else the value of the first
    root key that is [palette] up to case; the block data are the [Data]
    entry of a [Blocks] substructure, else the root-level [BlockData].  This
    is the rule as worded whenever [Blocks] holds both entries or neither.
    With the dimensions present, loading raises [KeyError] when the palette
    or the block data are still missing. *)
Theorem C5_palette_resolution (nbt_file root : compound) (width height length : Z) :
  schem_root nbt_file = Ok root →
  item root "Width" ≫= as_int = Ok width →
  item root "Height" ≫= as_int = Ok height →
  item root "Length" ≫= as_int = Ok length →
  (find_palette_and_block_data root).1
  = match blocks_entry root "Palette" with
    | Some palette => Some palette
    | None =>
        match Py.dict_get root "Palette" with
        | Some palette => Some palette
        | None => palette_any_case root
        end
    end
  ∧ (find_palette_and_block_data root).2
    = match blocks_entry root "Data" with
      | Some block_data => Some block_data
      | None => Py.dict_get root "BlockData"
      end
  ∧ ((is_Some (blocks_entry root "Palette") ↔ is_Some (blocks_entry root "Data")) →
     find_palette_and_block_data root = spec_find_palette_and_block_data root)
  ∧ ((find_palette_and_block_data root).1 = None
     ∨ (find_palette_and_block_data root).2 = None →
     ∃ msg, _load_schem_format nbt_file = Raise (KeyError msg)).
Proof.
  intros Hroot Hw Hh Hl.
  rewrite find_palette_and_block_data_eq. cbn [fst snd].
  split; [reflexivity|]. split; [reflexivity|]. split.
  - unfold spec_find_palette_and_block_data.
    destruct (blocks_entry root "Palette"), (blocks_entry root "Data");
      intros [H1 H2]; try reflexivity.
    + destruct H1 as [? H1]; [eauto|discriminate H1].
    + destruct H2 as [? H2]; [eauto|discriminate H2].
  - intros Hmiss. unfold _load_schem_format.
    rewrite Hroot. cbn [mbind result_bind]. rewrite Hw. cbn [mbind result_bind].
    rewrite Hh. cbn [mbind result_bind]. rewrite Hl. cbn [mbind result_bind].
    rewrite find_palette_and_block_data_eq.
    destruct Hmiss as [Hp|Hd].
    + rewrite Hp. eauto.
    + rewrite Hd.
      destruct (match blocks_entry root "Palette" with
                | Some palette => Some palette
                | None => match Py.dict_get root "Palette" with
                          | Some palette => Some palette
                          | None => palette_any_case root
                          end
                end); eauto.
Qed.

(** A file with a lower-case [palette] key and no block data. *)
Lemma C5_palette_resolution_witness :
  let file : compound :=
    [ ("Width", TagInt 1); ("Height", TagInt 1); ("Length", TagInt 1);
      ("palette", TagCompound [ ("minecraft:stone", TagInt 0) ]) ]%string in
  schem_root file = Ok file
  ∧ (find_palette_and_block_data file).1 = Some (TagCompound [ ("minecraft:stone"%string, TagInt 0) ])
  ∧ ∃ msg, _load_schem_format file = Raise (KeyError msg).
Proof.
  intros file.
  pose proof (C5_palette_resolution file file 1 1 1 eq_refl eq_refl eq_refl eq_refl)
    as (Hp & _ & _ & Hfail).
  split; [reflexivity|]. split; [rewrite Hp; reflexivity|].
  apply Hfail. right. reflexivity.
Defined.

(** A [Blocks] substructure holding only [Palette]: the loader takes it,
    with the root-level [BlockData], where the rule as worded finds no
    palette (first file) or the root-level one (second file). *)
Lemma C5_counterexample :
  let stone : nbt := TagCompound [ ("minecraft:stone"%string, TagInt 0) ] in
  let dirt : nbt := TagCompound [ ("minecraft:dirt"%string, TagInt 0) ] in
  let file1 : compound :=
    [ ("Width", TagInt 1); ("Height", TagInt 1); ("Length", TagInt 1);
      ("Blocks", TagCompound [ ("Palette", stone) ]);
      ("BlockData", TagByteArray [0]) ]%string in
  let file2 : compound :=
    [ ("Width", TagInt 1); ("Height", TagInt 1); ("Length", TagInt 1);
      ("Blocks", TagCompound [ ("Palette", stone) ]);
      ("Palette", dirt); ("BlockData", TagByteArray [0]) ]%string in
  (spec_find_palette_and_block_data file1 = (None, Some (TagByteArray [0]))
   ∧ _load_schem_format file1 = Ok (schem_grid 1 1 1 [ "minecraft:stone"%string ]))
  ∧ (spec_find_palette_and_block_data file2 = (Some dirt, Some (TagByteArray [0]))
     ∧ _load_schem_format file2 = Ok (schem_grid 1 1 1 [ "minecraft:stone"%string ])).
Proof. vm_compute. repeat split; reflexivity. Qed.

(** ** Loops *)

Lemma foldl_bind_list {S A B : Type} (f : S → B → S) (g : A → list B) (l : list A) (s : S) :
  foldl f s (l ≫= g) = foldl (fun s a => foldl f s (g a)) s l.
Proof.
  revert s. induction l as [|a l IH]; intros s; [reflexivity|].
  cbn [mbind list_bind foldl]. rewrite foldl_app. apply IH.
Qed.

Lemma foldl_ext_all {S A : Type} (f g : S → A → S) (l : list A) (s : S) :
  (∀ s a, f s a = g s a) → foldl f s l = foldl g s l.
Proof.
  intros H. revert s. induction l as [|a l IH]; intros s; [reflexivity|].
  cbn [foldl]. rewrite H. apply IH.
Qed.

Lemma for_yzx_foldl {S : Type} (height length width : Z) (body : Z → Z → Z → S → S) (s : S) :
  for_yzx height length width body s
  = foldl (fun s c => body c.1.1 c.1.2 c.2 s) s (grid_cells height length width).
Proof.
  unfold for_yzx, for_range, grid_cells.
  rewrite foldl_bind_list. apply foldl_ext_all. intros s1 y.
  rewrite foldl_bind_list. apply foldl_ext_all. intros s2 z.
  rewrite foldl_bind_list. apply foldl_ext_all. intros s3 x.
  reflexivity.
Qed.

Lemma elem_of_grid_cells (height length width : Z) (c : cell) :
  c ∈ grid_cells height length width
  ↔ 0 ≤ c.1.1 < height ∧ 0 ≤ c.1.2 < length ∧ 0 ≤ c.2 < width.
Proof.
  destruct c as [[y z] x]. unfold grid_cells. cbn [fst snd].
  rewrite list_elem_of_bind. split.
  - intros (y' & Hin & Hy). apply elem_of_seqZ in Hy.
    apply list_elem_of_bind in Hin as (z' & Hin & Hz). apply elem_of_seqZ in Hz.
    apply list_elem_of_bind in Hin as (x' & Hin & Hx). apply elem_of_seqZ in Hx.
    apply list_elem_of_singleton in Hin. inversion Hin; subst. lia.
  - intros (Hy & Hz & Hx). exists y. split; [|apply elem_of_seqZ; lia].
    apply list_elem_of_bind. exists z. split; [|apply elem_of_seqZ; lia].
    apply list_elem_of_bind. exists x. split; [|apply elem_of_seqZ; lia].
    apply list_elem_of_singleton. reflexivity.
Qed.

(** An invariant [P] of the loop state, and a property [Q a] that the
    iteration for [a] establishes and the later iterations keep. *)
Lemma foldl_keeps {S A : Type} (P : S → Prop) (Q : S → Prop) (f : S → A → S)
    (l : list A) (s : S) :
  (∀ a s, a ∈ l → P s → P (f s a)) →
  (∀ a s, a ∈ l → P s → Q s → Q (f s a)) →
  P s → Q s → P (foldl f s l) ∧ Q (foldl f s l).
Proof.
  revert s. induction l as [|b l IH]; intros s HP HQ Hs Hq; [auto|].
  cbn [foldl]. apply IH.
  - intros a s' Ha. apply HP. right. exact Ha.
  - intros a s' Ha. apply HQ. right. exact Ha.
  - apply HP; [left|exact Hs].
  - apply HQ; [left|exact Hs|exact Hq].
Qed.

Lemma foldl_establishes {S A : Type} (P : S → Prop) (Q : A → S → Prop) (f : S → A → S)
    (l : list A) (s : S) :
  (∀ a s, a ∈ l → P s → P (f s a) ∧ Q a (f s a)) →
  (∀ a b s, b ∈ l → P s → Q a s → Q a (f s b)) →
  P s →
  P (foldl f s l) ∧ ∀ a, a ∈ l → Q a (foldl f s l).
Proof.
  revert s. induction l as [|b l IH]; intros s Hstep Hstable Hs.
  - split; [exact Hs|]. intros a Ha. inversion Ha.
  - cbn [foldl]. destruct (Hstep b s) as [Hs' Hq']; [left|exact Hs|].
    destruct (IH (f s b)) as [HP HQ].
    + intros a s' Ha. apply Hstep. right. exact Ha.
    + intros a c s' Hc. apply Hstable. right. exact Hc.
    + exact Hs'.
    + split; [exact HP|]. intros a Ha. apply elem_of_cons in Ha as [->|Ha].
      * apply (foldl_keeps P (Q b) f l (f s b)); auto.
        -- intros a s' Ha Hp. apply Hstep; [right; exact Ha|exact Hp].
        -- intros a s' Ha. apply Hstable. right. exact Ha.
      * apply HQ. exact Ha.
Qed.

Lemma foldl_append {A B : Type} (g : A → list B) (l : list A) (acc : list B) :
  foldl (fun out a => out ++ g a) acc l = acc ++ (l ≫= g).
Proof.
  revert acc. induction l as [|a l IH]; intros acc; cbn [foldl mbind list_bind].
  - rewrite app_nil_r. reflexivity.
  - rewrite IH. rewrite <- app_assoc. reflexivity.
Qed.

Lemma convert_standard_eq (sd : schematic) :
  _convert_standard sd
  = grid_cells (sd_height sd) (sd_length sd) (sd_width sd)
      ≫= (fun c => standard_voxel sd c.1.1 c.1.2 c.2).
Proof.
  unfold _convert_standard. rewrite for_yzx_foldl.
  rewrite (foldl_append (fun c => standard_voxel sd c.1.1 c.1.2 c.2)). reflexivity.
Qed.

(** ** Names, colours and the skip set *)

Lemma dict_get_elem_of {K V : Type} `{EqDecision K} (d : list (K * V)) (k : K) (v : V) :
  Py.dict_get d k = Some v → (k, v) ∈ d.
Proof.
  induction d as [|[k' v'] d IH]; simpl; [discriminate|].
  destruct (Py.dict_get d k) as [w|].
  - intros [= ->]. right. apply IH. reflexivity.
  - destruct (decide (k = k')) as [->|]; [|discriminate].
    intros [= ->]. left.
Qed.

Lemma dict_get_default_elem_of {K V : Type} `{EqDecision K} (d : list (K * V)) (k : K) (dflt : V) :
  Py.dict_get_default d k dflt ∈ dflt :: map snd d.
Proof.
  unfold Py.dict_get_default. destruct (Py.dict_get d k) as [v|] eqn:E; [|left].
  right. apply dict_get_elem_of in E. apply list_elem_of_fmap. exists (k, v). auto.
Qed.

Lemma split_bracket_head_clean (s : string) :
  Py.contains "[" (hd EmptyString (Py.split "[" s)) = false.
Proof.
  induction s as [|c s IH]; [reflexivity|].
  cbn [Py.split]. destruct (Ascii.eqb c "[") eqn:E; [reflexivity|].
  assert (Hp : ∀ t, String.prefix "[" (String c t) = false).
  { intros t. cbn [String.prefix].
    destruct (ascii_dec "[" c) as [<-|]; [discriminate E|reflexivity]. }
  destruct (Py.split "[" s) as [|p ps]; cbn [hd] in *.
  - cbn [Py.contains]. rewrite Hp. reflexivity.
  - cbn [Py.contains]. rewrite IH, Hp. reflexivity.
Qed.

Lemma strip_name_clean (block_name : string) :
  Py.contains "[" (strip_name block_name) = false.
Proof.
  unfold strip_name.
  destruct (Py.contains "[" (Py.replace "minecraft:" EmptyString block_name)) eqn:E.
  - apply split_bracket_head_clean.
  - exact E.
Qed.

Lemma get_color_from_block_name_eq (block_name : string) :
  _get_color_from_block_name block_name
  = Py.dict_get_default block_to_color (strip_name block_name) 7.
Proof.
  unfold _get_color_from_block_name. rewrite strip_name_clean. reflexivity.
Qed.

Lemma color_is_skip_marker_iff_air (block_name : string) :
  _get_color_from_block_name block_name = -1 ↔ strip_name block_name = "air"%string.
Proof.
  rewrite get_color_from_block_name_eq. unfold Py.dict_get_default. split.
  - destruct (Py.dict_get block_to_color (strip_name block_name)) as [v|] eqn:E; [|discriminate].
    intros ->. apply dict_get_elem_of in E.
    assert (H : Forall (fun p => p.2 = -1 → p.1 = "air"%string) block_to_color).
    { apply (bool_decide_unpack _). vm_compute. reflexivity. }
    rewrite List.Forall_forall in H. apply list_elem_of_In in E. apply (H _ E). reflexivity.
  - intros ->. vm_compute. reflexivity.
Qed.

Lemma block_id_is_air_iff (block_name : string) :
  _block_name_to_id block_name = 0 ↔ strip_name block_name = "air"%string.
Proof.
  unfold _block_name_to_id, Py.dict_get_default. split.
  - destruct (Py.dict_get name_to_id (strip_name block_name)) as [v|] eqn:E; [|discriminate].
    intros ->. apply dict_get_elem_of in E.
    assert (H : Forall (fun p => p.2 = 0 → p.1 = "air"%string) name_to_id).
    { apply (bool_decide_unpack _). vm_compute. reflexivity. }
    rewrite List.Forall_forall in H. apply list_elem_of_In in E. apply (H _ E). reflexivity.
  - intros ->. vm_compute. reflexivity.
Qed.

Lemma list_item_map {A B : Type} (f : A → B) (l : list A) (i : Z) :
  list_item (map f l) i = f <$> list_item l i.
Proof.
  unfold list_item. destruct (i <? 0); [reflexivity|]. apply list_lookup_fmap.
Qed.

Lemma voxel_color_named (width height length y z x : Z) (block_names : list string)
    (block_name : string) :
  list_item block_names (data_index (schem_grid width height length block_names) y z x)
  = Some block_name →
  strip_name block_name ≠ "air"%string →
  strip_name block_name ∉ skip_blocks →
  voxel_color (schem_grid width height length block_names) y z x
  = Some (_get_color_from_block_name block_name, Some block_name).
Proof.
  intros Hname Hair Hskip. unfold voxel_color, block_at.
  cbn [sd_blocks sd_block_names schem_grid] in *.
  rewrite list_item_map. rewrite Hname. cbn [fmap option_fmap option_map default from_option]. unfold id.
  destruct (_block_name_to_id block_name =? 0) eqn:E1.
  { apply Z.eqb_eq, block_id_is_air_iff in E1. contradiction. }
  destruct (_get_color_from_block_name block_name =? -1) eqn:E2.
  { apply Z.eqb_eq, color_is_skip_marker_iff_air in E2. contradiction. }
  unfold _is_skip_block. rewrite bool_decide_eq_false_2 by exact Hskip. reflexivity.
Qed.

Lemma emit_block_2x_nonempty (x y z : Q) (color_id : Z) (special : option special_info) :
  _emit_block_2x x y z color_id special ≠ [].
Proof.
  unfold _emit_block_2x. destruct special as [[p r o f half|p r o t|p r o]|].
  - destruct (String.eqb half "bottom"); discriminate.
  - destruct (String.eqb t "bottom"); discriminate.
  - discriminate.
  - discriminate.
Qed.

Lemma emit_block_2x_color (x y z : Q) (color_id : Z) (special : option special_info) :
  Forall (fun line => ∃ px py pz rotation part,
                        line = ldraw_line color_id px py pz rotation part)
         (_emit_block_2x x y z color_id special).
Proof.
  unfold _emit_block_2x. destruct special as [[p r o f half|p r o t|p r o]|].
  - destruct (String.eqb half "bottom"); repeat constructor; eauto 10.
  - destruct (String.eqb t "bottom"); repeat constructor; eauto 10.
  - repeat constructor; eauto 10.
  - repeat constructor; eauto 10.
Qed.

Lemma emit_voxel_lines (sd : schematic) (scale y z x color_id : Z)
    (special : option special_info) :
  emit_voxel sd scale y z x color_id special ≠ []
  ∧ Forall (fun line => ∃ px py pz rotation part,
                          line = ldraw_line color_id px py pz rotation part)
           (emit_voxel sd scale y z x color_id special).
Proof.
  unfold emit_voxel. destruct (scale =? 2).
  - split; [apply emit_block_2x_nonempty|apply emit_block_2x_color].
  - destruct special as [si|]; split; try discriminate; repeat constructor; eauto 10.
Qed.

(** ** The greedy merge covers every kept voxel once *)

Lemma covers_spec (r : region) (c : cell) :
  covers r c = true
  ↔ r_y r = c.1.1 ∧ r_z r ≤ c.1.2 < r_z r + r_zlen r ∧ r_x r ≤ c.2 < r_x r + r_xlen r.
Proof.
  unfold covers. rewrite !andb_true_iff, Z.eqb_eq, !Z.leb_le, !Z.ltb_lt. lia.
Qed.

Lemma cover_count_app (c : cell) (out : list region) (r : region) :
  cover_count c (out ++ [r]) = (cover_count c out + (if covers r c then 1 else 0))%nat.
Proof.
  unfold cover_count. rewrite List.filter_app, length_app. cbn [List.filter].
  destruct (covers r c); reflexivity.
Qed.

Lemma fold_union_spec {A : Type} (g : A → gset cell → gset cell) (R : A → cell → Prop)
    (l : list A) (used : gset cell) (c : cell) :
  (∀ a u c, c ∈ g a u ↔ c ∈ u ∨ R a c) →
  c ∈ foldl (fun u a => g a u) used l ↔ c ∈ used ∨ ∃ a, a ∈ l ∧ R a c.
Proof.
  intros Hg. revert used. induction l as [|a l IH]; intros used; cbn [foldl].
  - split; [auto|]. intros [H|(a & Ha & _)]; [exact H|inversion Ha].
  - rewrite IH, Hg. split.
    + intros [[H|H]|(b & Hb & H)]; [left; exact H|right; exists a; split; [left|exact H]|].
      right. exists b. split; [right; exact Hb|exact H].
    + intros [H|(b & Hb & H)]; [left; left; exact H|].
      apply elem_of_cons in Hb as [->|Hb]; [left; right; exact H|].
      right. exists b. split; assumption.
Qed.

Lemma mark_used_spec (y z x z_len x_len : Z) (used : gset cell) (c : cell) :
  c ∈ mark_used y z x z_len x_len used
  ↔ c ∈ used ∨ (c.1.1 = y ∧ z ≤ c.1.2 < z + z_len ∧ x ≤ c.2 < x + x_len).
Proof.
  unfold mark_used, for_range.
  rewrite (fold_union_spec _
             (fun dz c => ∃ dx, dx ∈ seqZ 0 x_len ∧ c = (y, z + dz, x + dx))).
  - split; (intros [H|H]; [left; exact H|right]).
    + destruct H as (dz & Hdz & dx & Hdx & ->). apply elem_of_seqZ in Hdz, Hdx.
      cbn [fst snd]. lia.
    + destruct c as [[cy cz] cx]. cbn [fst snd] in H.
      exists (cz - z). split; [apply elem_of_seqZ; lia|].
      exists (cx - x). split; [apply elem_of_seqZ; lia|].
      f_equal; [f_equal|]; lia.
  - intros dz u c'.
    rewrite (fold_union_spec _ (fun dx c => c = (y, z + dz, x + dx))).
    + reflexivity.
    + intros dx u' c''. rewrite elem_of_union, elem_of_singleton. tauto.
Qed.

Section Merge.

Variable sd : schematic.

Lemma add_region (used : gset cell) (out : list region) (y z x z_len x_len color_id : Z)
    (kind : region_kind) :
  merge_invariant sd (used, out) →
  free_box sd used y z x z_len x_len color_id →
  merge_invariant sd
    (mark_used y z x z_len x_len used,
     out ++ [ {| r_y := y; r_z := z; r_x := x; r_zlen := z_len; r_xlen := x_len;
                 r_color := color_id; r_kind := kind |} ])
  ∧ used ⊆ mark_used y z x z_len x_len used
  ∧ (y, z, x) ∈ mark_used y z x z_len x_len used.
Proof.
  intros (Hcount & Hused & Hcolor) (Hz & Hx & Hcid & Hbox). split; [split; [|split]|split].
  - intros c. cbn [fst snd]. rewrite cover_count_app, Hcount.
    destruct (covers _ c) eqn:Hc.
    + apply covers_spec in Hc. cbn [r_y r_z r_x r_zlen r_xlen] in Hc.
      destruct c as [[cy cz] cx]. cbn [fst snd] in Hc. destruct Hc as (<- & Hcz & Hcx).
      destruct (Hbox cz cx Hcz Hcx) as (Hfree & _).
      rewrite (bool_decide_eq_false_2 _ Hfree).
      rewrite bool_decide_eq_true_2; [reflexivity|].
      apply mark_used_spec. right. cbn [fst snd]. lia.
    + assert (Hiff : c ∈ mark_used y z x z_len x_len used ↔ c ∈ used).
      { rewrite mark_used_spec. split; [|auto]. intros [H|H]; [exact H|].
        exfalso. apply not_true_iff_false in Hc. apply Hc. apply covers_spec.
        cbn [r_y r_z r_x r_zlen r_xlen]. lia. }
      rewrite (bool_decide_ext _ _ Hiff). apply Nat.add_0_r.
  - intros c. cbn [fst]. rewrite mark_used_spec. intros [H|H]; [apply Hused; exact H|].
    destruct c as [[cy cz] cx]. cbn [fst snd] in H |- *. destruct H as (-> & Hcz & Hcx).
    destruct (Hbox cz cx Hcz Hcx) as (_ & Hg & Hcol). split; [exact Hg|].
    rewrite Hcol. exact Hcid.
  - cbn [snd] in Hcolor |- *. apply Forall_app. split; [exact Hcolor|].
    constructor; [|constructor]. intros [[cy cz] cx] Hc.
    apply covers_spec in Hc. cbn [r_y r_z r_x r_zlen r_xlen r_color fst snd] in Hc |- *.
    destruct Hc as (<- & Hcz & Hcx).
    destruct (Hbox cz cx Hcz Hcx) as (_ & _ & Hcol). rewrite Hcol. reflexivity.
  - intros c Hc. apply mark_used_spec. left. exact Hc.
  - apply mark_used_spec. right. cbn [fst snd]. lia.
Qed.

Lemma best_run_spec (x : Z) (lengths : list Z) (ok : Z → bool) :
  Forall (fun n => 1 ≤ n) lengths →
  ok x = true → x < sd_width sd →
  1 ≤ best_run sd x lengths ok
  ∧ x + best_run sd x lengths ok ≤ sd_width sd
  ∧ ∀ x', x ≤ x' < x + best_run sd x lengths ok → ok x' = true.
Proof.
  intros Hlen Hok Hx. unfold best_run.
  destruct (find _ lengths) as [n|] eqn:E; cbn [default from_option]; unfold id.
  - apply find_some in E as [Hin Hn]. rewrite List.Forall_forall in Hlen.
    specialize (Hlen n Hin). apply andb_true_iff in Hn as [Hw Hall].
    apply negb_true_iff, Z.ltb_ge in Hw. rewrite forallb_forall in Hall.
    split; [exact Hlen|]. split; [exact Hw|]. intros x' Hx'.
    replace x' with (x + (x' - x)) by lia. apply Hall.
    apply list_elem_of_In, elem_of_seqZ. lia.
  - split; [lia|]. split; [lia|]. intros x' Hx'. replace x' with x by lia. exact Hok.
Qed.

Lemma merge_cell_step (scale y z x : Z) (st : merge_state) :
  in_grid sd (y, z, x) →
  merge_invariant sd st →
  merge_invariant sd (merge_cell sd scale y z x st)
  ∧ st.1 ⊆ (merge_cell sd scale y z x st).1
  ∧ (special_blocks sd y z x = false → color_grid sd y z x ≠ -1 →
     (y, z, x) ∈ (merge_cell sd scale y z x st).1).
Proof.
  intros Hgrid Hinv. unfold merge_cell.
  destruct (bool_decide ((y, z, x) ∈ st.1)) eqn:Hu; cbn [orb].
  { split; [exact Hinv|]. split; [reflexivity|]. intros _ _.
    apply bool_decide_eq_true in Hu. exact Hu. }
  destruct (color_grid sd y z x =? -1) eqn:Hc; cbn [orb].
  { split; [exact Hinv|]. split; [reflexivity|]. intros _ Hne.
    apply Z.eqb_eq in Hc. contradiction. }
  destruct (special_blocks sd y z x) eqn:Hs.
  { split; [exact Hinv|]. split; [reflexivity|]. intros Hf. discriminate Hf. }
  apply bool_decide_eq_false in Hu. apply Z.eqb_neq in Hc.
  destruct st as [used out]. cbn [fst] in Hu.
  destruct Hgrid as (Hy & Hz & Hx). cbn [fst snd] in Hy, Hz, Hx.
  assert (Hdone : ∀ z_len x_len kind,
             free_box sd used y z x z_len x_len (color_grid sd y z x) →
             merge_invariant sd
               (mark_used y z x z_len x_len used,
                out ++ [ {| r_y := y; r_z := z; r_x := x; r_zlen := z_len;
                            r_xlen := x_len; r_color := color_grid sd y z x;
                            r_kind := kind |} ])
             ∧ used ⊆ mark_used y z x z_len x_len used
             ∧ (false = false → color_grid sd y z x ≠ -1 →
                (y, z, x) ∈ mark_used y z x z_len x_len used)).
  { intros z_len x_len kind Hbox.
    destruct (add_region used out y z x z_len x_len (color_grid sd y z x) kind Hinv Hbox)
      as (H1 & H2 & H3). auto. }
  destruct (scale =? 2).
  - (* scale 2 *)
    unfold merge_cell_scale2.
    set (ok := fun x' => negb (bool_decide ((y, z, x') ∈ used)
                               || negb (color_grid sd y z x' =? color_grid sd y z x)
                               || special_blocks sd y z x')).
    destruct (best_run_spec x scale2_x_lengths ok) as (Hn1 & Hn2 & Hrun).
    { repeat constructor; lia. }
    { unfold ok. rewrite (bool_decide_eq_false_2 _ Hu), Z.eqb_refl, Hs. reflexivity. }
    { lia. }
    cbn [fst]. apply Hdone. split; [lia|]. split; [exact Hn1|]. split; [exact Hc|].
    intros z' x' Hz' Hx'. assert (z' = z) as -> by lia.
    specialize (Hrun x' Hx'). unfold ok in Hrun.
    apply negb_true_iff, orb_false_iff in Hrun as [Hrun _].
    apply orb_false_iff in Hrun as [Hfree Hcol].
    apply bool_decide_eq_false in Hfree. apply negb_false_iff, Z.eqb_eq in Hcol.
    split; [exact Hfree|]. split; [|exact Hcol].
    unfold in_grid. cbn [fst snd]. lia.
  - (* scale 1 *)
    unfold merge_cell_scale1.
    set (ok := fun x' => negb (bool_decide ((y, z, x') ∈ used)
                               || negb (color_grid sd y z x' =? color_grid sd y z x))).
    destruct (best_run_spec x x_lengths ok) as (Hn1 & Hn2 & Hrun).
    { repeat constructor; lia. }
    { unfold ok. rewrite (bool_decide_eq_false_2 _ Hu), Z.eqb_refl. reflexivity. }
    { lia. }
    set (n := best_run sd x x_lengths ok) in *.
    match goal with
    | |- context [if ?b then 2 else 1] => set (zl := if b then 2 else 1)
    end.
    assert (Hrow : ∀ x', x ≤ x' < x + n →
               ((y, z, x') ∉ used) ∧ color_grid sd y z x' = color_grid sd y z x).
    { intros x' Hx'. specialize (Hrun x' Hx'). unfold ok in Hrun.
      apply negb_true_iff, orb_false_iff in Hrun as [Hfree Hcol].
      apply bool_decide_eq_false in Hfree. apply negb_false_iff, Z.eqb_eq in Hcol.
      auto. }
    assert (Hzl : (zl = 1 ∨ zl = 2)
                  ∧ (zl = 2 → z + 1 < sd_length sd
                              ∧ ∀ x', x ≤ x' < x + n →
                                  ((y, z + 1, x') ∉ used)
                                  ∧ color_grid sd y (z + 1) x' = color_grid sd y z x)).
    { subst zl.
      destruct (z + 1 <? sd_length sd) eqn:E1; cbn [andb]; [|split; [auto|lia]].
      destruct (2 <=? n) eqn:E2; cbn [andb]; [|split; [auto|lia]].
      destruct (forallb _ (seqZ 0 n)) eqn:E3; cbn [andb]; [|split; [auto|lia]].
      destruct (Py.dict_mem brick_sizes (2, n)); [|split; [auto|lia]].
      split; [auto|]. intros _. apply Z.ltb_lt in E1. split; [exact E1|].
      intros x' Hx'. rewrite forallb_forall in E3.
      specialize (E3 (x' - x)). replace (x + (x' - x)) with x' in E3 by lia.
      assert (Hin : In (x' - x) (seqZ 0 n)) by (apply list_elem_of_In, elem_of_seqZ; lia).
      specialize (E3 Hin).
      apply negb_true_iff, orb_false_iff in E3 as [Hfree Hcol].
      apply bool_decide_eq_false in Hfree. apply negb_false_iff, Z.eqb_eq in Hcol.
      auto. }
    clearbody zl. destruct Hzl as [Hzl12 Hzl2].
    destruct (Py.dict_get brick_sizes (zl, n)) as [part|]; cbn [fst].
    + apply Hdone. split; [lia|]. split; [exact Hn1|]. split; [exact Hc|].
      intros z' x' Hz' Hx'.
      assert (z' = z ∨ (z' = z + 1 ∧ zl = 2)) as [->|[-> Hzl]] by lia.
      * destruct (Hrow x' Hx') as [Hfree Hcol].
        split; [exact Hfree|]. split; [|exact Hcol].
        unfold in_grid. cbn [fst snd]. lia.
      * destruct (Hzl2 Hzl) as [Hlen Hrow'].
        destruct (Hrow' x' Hx') as [Hfree Hcol].
        split; [exact Hfree|]. split; [|exact Hcol].
        unfold in_grid. cbn [fst snd]. lia.
    + apply Hdone. split; [lia|]. split; [lia|]. split; [exact Hc|].
      intros z' x' Hz' Hx'. assert (z' = z) as -> by lia. assert (x' = x) as -> by lia.
      split; [exact Hu|]. split; [|reflexivity]. unfold in_grid. cbn [fst snd]. lia.
Qed.

Lemma special_cell_step (y z x : Z) (st : merge_state) :
  in_grid sd (y, z, x) →
  merge_invariant sd st →
  merge_invariant sd (special_cell sd y z x st)
  ∧ st.1 ⊆ (special_cell sd y z x st).1
  ∧ (color_grid sd y z x ≠ -1 → special_blocks sd y z x = true →
     (y, z, x) ∈ (special_cell sd y z x st).1).
Proof.
  intros Hgrid Hinv. destruct st as [used out]. unfold special_cell. cbn [fst].
  destruct (bool_decide ((y, z, x) ∈ used)) eqn:Hu; cbn [orb].
  { split; [exact Hinv|]. split; [reflexivity|]. intros _ _.
    apply bool_decide_eq_true in Hu. exact Hu. }
  destruct (special_blocks sd y z x) eqn:Hs; cbn [negb orb].
  2:{ split; [exact Hinv|]. split; [reflexivity|]. intros _ Hf. discriminate Hf. }
  destruct (color_grid sd y z x =? -1) eqn:Hc.
  { split; [exact Hinv|]. split; [reflexivity|]. intros Hne.
    apply Z.eqb_eq in Hc. contradiction. }
  apply bool_decide_eq_false in Hu. apply Z.eqb_neq in Hc.
  (* a special block has a name, and the name gives its special part *)
  unfold special_blocks in Hs. unfold voxel_color in Hs.
  destruct (block_at sd y z x =? 0); [discriminate Hs|].
  destruct (sd_block_names sd) as [block_names|]; [|discriminate Hs].
  destruct (list_item block_names (data_index sd y z x)) as [name|]; [|discriminate Hs].
  destruct (_get_color_from_block_name name =? -1); [discriminate Hs|].
  destruct (_is_skip_block name); [discriminate Hs|].
  destruct (_get_special_part_info name) as [si|] eqn:Hsi; [|discriminate Hs].
  destruct (String.eqb name EmptyString) eqn:Hempty.
  { apply String.eqb_eq in Hempty. subst name. vm_compute in Hsi. discriminate Hsi. }
  assert (Hbox : free_box sd used y z x 1 1 (color_grid sd y z x)).
  { split; [lia|]. split; [lia|]. split; [exact Hc|]. intros z' x' Hz' Hx'.
    assert (z' = z) as -> by lia. assert (x' = x) as -> by lia. auto. }
  destruct (add_region used out y z x 1 1 (color_grid sd y z x) (Voxel (Some si)) Hinv Hbox)
    as (H1 & H2 & H3).
  assert (Hmark : mark_used y z x 1 1 used = {[ (y, z, x) ]} ∪ used).
  { apply set_eq. intros [[cy cz] cx].
    rewrite mark_used_spec, elem_of_union, elem_of_singleton. cbn [fst snd].
    split.
    - intros [H|H]; [right; exact H|left; f_equal; [f_equal|]; lia].
    - intros [H|H]; [right; inversion H; lia|left; exact H]. }
  rewrite Hmark in H1, H2, H3. auto.
Qed.

Lemma merge_pass_spec (scale : Z) :
  merge_invariant sd (merge_pass sd scale)
  ∧ ∀ c, in_grid sd c →
         special_blocks sd c.1.1 c.1.2 c.2 = false →
         color_grid sd c.1.1 c.1.2 c.2 ≠ -1 →
         c ∈ (merge_pass sd scale).1.
Proof.
  unfold merge_pass. rewrite for_yzx_foldl.
  destruct (foldl_establishes (merge_invariant sd)
              (fun c st => special_blocks sd c.1.1 c.1.2 c.2 = false →
                           color_grid sd c.1.1 c.1.2 c.2 ≠ -1 → c ∈ st.1)
              (fun s c => merge_cell sd scale c.1.1 c.1.2 c.2 s)
              (grid_cells (sd_height sd) (sd_length sd) (sd_width sd)) (∅, []))
    as [HP HQ].
  - intros [[y z] x] st Hin Hinv. apply elem_of_grid_cells in Hin.
    destruct (merge_cell_step scale y z x st Hin Hinv) as (H1 & _ & H3). auto.
  - intros a [[y z] x] st Hin Hinv Hq Hs Hc. apply elem_of_grid_cells in Hin.
    destruct (merge_cell_step scale y z x st Hin Hinv) as (_ & H2 & _).
    apply H2. auto.
  - split; [intros c; reflexivity|]. split; [|constructor]. intros c Hc. cbn [fst] in Hc.
    apply not_elem_of_empty in Hc. contradiction.
  - split; [exact HP|]. intros c Hc. apply HQ. apply elem_of_grid_cells. exact Hc.
Qed.

Lemma special_pass_spec (st : merge_state) :
  merge_invariant sd st →
  let final := for_yzx (sd_height sd) (sd_length sd) (sd_width sd) (special_cell sd) st in
  merge_invariant sd final
  ∧ st.1 ⊆ final.1
  ∧ ∀ c, in_grid sd c →
         special_blocks sd c.1.1 c.1.2 c.2 = true →
         color_grid sd c.1.1 c.1.2 c.2 ≠ -1 →
         c ∈ final.1.
Proof.
  intros Hinv final. subst final. rewrite for_yzx_foldl.
  destruct (foldl_establishes (fun s => merge_invariant sd s ∧ st.1 ⊆ s.1)
              (fun c s => special_blocks sd c.1.1 c.1.2 c.2 = true →
                          color_grid sd c.1.1 c.1.2 c.2 ≠ -1 → c ∈ s.1)
              (fun s c => special_cell sd c.1.1 c.1.2 c.2 s)
              (grid_cells (sd_height sd) (sd_length sd) (sd_width sd)) st)
    as [[HP Hsub] HQ].
  - intros [[y z] x] s Hin [Hs Hsub]. apply elem_of_grid_cells in Hin.
    destruct (special_cell_step y z x s Hin Hs) as (H1 & H2 & H3).
    split; [split; [exact H1|intros c' Hc'; apply H2, Hsub, Hc']|]. cbn [fst snd]. auto.
  - intros a [[y z] x] s Hin [Hs Hsub] Hq Hsp Hc. apply elem_of_grid_cells in Hin.
    destruct (special_cell_step y z x s Hin Hs) as (_ & H2 & _).
    apply H2. auto.
  - split; [exact Hinv|reflexivity].
  - split; [exact HP|]. split; [exact Hsub|].
    intros c Hc. apply HQ. apply elem_of_grid_cells. exact Hc.
Qed.

End Merge.

Lemma color_grid_skipped (sd : schematic) (c : cell) :
  color_grid sd c.1.1 c.1.2 c.2 = -1 ↔ is_skipped sd c = true.
Proof.
  unfold color_grid, is_skipped, voxel_color.
  destruct (block_at sd c.1.1 c.1.2 c.2 =? 0); [tauto|].
  destruct (sd_block_names sd) as [block_names|].
  - destruct (list_item block_names _) as [name|]; [|split; discriminate].
    destruct (_get_color_from_block_name name =? -1) eqn:E; [tauto|].
    destruct (_is_skip_block name); [tauto|].
    apply Z.eqb_neq in E. split; [contradiction|discriminate].
  - split; [|discriminate]. unfold get_brick_info. cbn [snd]. intros H. exfalso.
    assert (Hb : Forall (fun v => v ≠ -1) (7 :: map snd block_colors)).
    { apply (bool_decide_unpack _). vm_compute. reflexivity. }
    assert (Hw : ∀ dflt, dflt ≠ -1 → Forall (fun v => v ≠ -1) (dflt :: map snd wool_color_mappings)).
    { intros dflt Hd. constructor; [exact Hd|]. apply (bool_decide_unpack _). vm_compute. reflexivity. }
    rewrite List.Forall_forall in Hb.
    set (block_id := block_at sd c.1.1 c.1.2 c.2) in *.
    pose proof (Hb _ (proj1 (list_elem_of_In _ _) (dict_get_default_elem_of block_colors block_id 7)))
      as Hid.
    destruct (_ && _) in H; [|contradiction].
    specialize (Hw _ Hid). rewrite List.Forall_forall in Hw.
    eapply Hw; [|exact H]. apply list_elem_of_In, dict_get_default_elem_of.
Qed.

Lemma cover_count_optimized (sd : schematic) (scale : Z) (c : cell) :
  cover_count c (_convert_optimized sd scale)
  = if bool_decide (in_grid sd c) && negb (is_skipped sd c) then 1%nat else 0%nat.
Proof.
  unfold _convert_optimized.
  destruct (merge_pass_spec sd scale) as [Hinv1 Hcov1].
  destruct (special_pass_spec sd (merge_pass sd scale) Hinv1)
    as ((Hcount & Hused & _) & Hsub & Hcov2).
  rewrite Hcount.
  destruct (bool_decide (c ∈ _)) eqn:Hu.
  - apply bool_decide_eq_true in Hu. destruct (Hused c Hu) as [Hg Hc].
    rewrite (bool_decide_eq_true_2 _ Hg).
    destruct (is_skipped sd c) eqn:Hsk; [|reflexivity].
    apply color_grid_skipped in Hsk. contradiction.
  - apply bool_decide_eq_false in Hu.
    destruct (bool_decide (in_grid sd c)) eqn:Hg; [|reflexivity].
    apply bool_decide_eq_true in Hg.
    destruct (is_skipped sd c) eqn:Hsk; [reflexivity|]. exfalso. apply Hu.
    assert (Hc : color_grid sd c.1.1 c.1.2 c.2 ≠ -1).
    { intros H. apply color_grid_skipped in H. congruence. }
    destruct (special_blocks sd c.1.1 c.1.2 c.2) eqn:Hs.
    + apply Hcov2; assumption.
    + apply Hsub. apply Hcov1; assumption.
Qed.

(** C2: whatever the grid and the scale, every voxel of the grid that is
    not skipped is covered by exactly one region of the greedy merge, and
    no region covers a skipped voxel or a cell outside the grid. *)
Theorem C2_greedy_regions_partition (sd : schematic) (scale : Z) (c : cell) :
  cover_count c (_convert_optimized sd scale)
  = if bool_decide (in_grid sd c) && negb (is_skipped sd c) then 1%nat else 0%nat.
Proof. apply cover_count_optimized. Qed.

(** ** Voxels that are not air *)

Lemma convert_optimized_invariant (sd : schematic) (scale : Z) :
  ∃ used, merge_invariant sd (used, _convert_optimized sd scale).
Proof.
  unfold _convert_optimized.
  destruct (merge_pass_spec sd scale) as [Hinv1 _].
  destruct (special_pass_spec sd (merge_pass sd scale) Hinv1) as (Hinv & _ & _).
  destruct (for_yzx _ _ _ _ _) as [used out]. exists used. exact Hinv.
Qed.

Lemma cover_count_positive (c : cell) (rs : list region) :
  (0 < cover_count c rs)%nat → ∃ r, r ∈ rs ∧ covers r c = true.
Proof.
  unfold cover_count. induction rs as [|r rs IH]; cbn [List.filter length]; [lia|].
  destruct (covers r c) eqn:E.
  - intros _. exists r. split; [left|exact E].
  - intros H. destruct (IH H) as (r' & Hin & Hc). exists r'. split; [right; exact Hin|exact Hc].
Qed.

Lemma emit_region_color (sd : schematic) (scale : Z) (r : region) :
  emit_region sd scale r ≠ []
  ∧ Forall (fun line => ∃ px py pz rotation part,
                          line = ldraw_line (r_color r) px py pz rotation part)
           (emit_region sd scale r).
Proof.
  unfold emit_region. destruct (r_kind r) as [brick_type|special].
  - unfold emit_run. destruct (scale =? 2); split; try discriminate;
      repeat constructor; eauto 10.
  - apply emit_voxel_lines.
Qed.

(** C10: in the [.schem] path a voxel whose base name is neither [air] nor
    in the skip set (so also [cave_air] and [void_air]) is converted, with
    either strategy and at any scale: a region covers it, the region is
    written as at least one placement line, and every line carries the
    colour the name resolves to, which is the default 7 when the base name
    is not in the name-to-colour table. *)
Theorem C10_only_air_is_empty (width height length scale y z x : Z) (optimize : bool)
    (block_names : list string) (block_name : string) :
  let sd := schem_grid width height length block_names in
  0 ≤ y < height → 0 ≤ z < length → 0 ≤ x < width →
  list_item block_names (data_index sd y z x) = Some block_name →
  strip_name block_name ≠ "air"%string →
  strip_name block_name ∉ skip_blocks →
  ∃ r, r ∈ convert_regions sd optimize scale
       ∧ covers r (y, z, x) = true
       ∧ r_color r = _get_color_from_block_name block_name
       ∧ (Py.dict_get block_to_color (strip_name block_name) = None → r_color r = 7)
       ∧ emit_region sd scale r ≠ []
       ∧ Forall (fun line =>
                   line ∈ placement_lines sd optimize scale
                   ∧ ∃ px py pz rotation part,
                       line = ldraw_line (r_color r) px py pz rotation part)
                (emit_region sd scale r).
Proof.
  intros sd Hy Hz Hx Hname Hair Hskip.
  pose proof (voxel_color_named width height length y z x block_names block_name
                Hname Hair Hskip) as Hvc.
  fold sd in Hvc.
  assert (Hin : ∃ r, r ∈ convert_regions sd optimize scale
                     ∧ covers r (y, z, x) = true
                     ∧ r_color r = _get_color_from_block_name block_name).
  { unfold convert_regions. destruct optimize.
    - destruct (convert_optimized_invariant sd scale) as (used & _ & _ & Hcolor).
      cbn [snd] in Hcolor.
      pose proof (cover_count_optimized sd scale (y, z, x)) as Hcount.
      rewrite bool_decide_eq_true_2 in Hcount
        by (unfold in_grid; cbn [fst snd sd_height sd_length sd_width sd schem_grid]; lia).
      unfold is_skipped in Hcount. cbn [fst snd] in Hcount. rewrite Hvc in Hcount.
      cbn [andb negb] in Hcount.
      destruct (cover_count_positive (y, z, x) (_convert_optimized sd scale))
        as (r & Hr & Hc); [lia|].
      exists r. split; [exact Hr|]. split; [exact Hc|].
      rewrite List.Forall_forall in Hcolor.
      rewrite (Hcolor r (proj1 (list_elem_of_In _ _) Hr) (y, z, x) Hc).
      cbn [fst snd]. unfold color_grid. rewrite Hvc. reflexivity.
    - eexists. split; [|split].
      + rewrite convert_standard_eq.
        apply list_elem_of_bind. exists (y, z, x). split.
        * cbn [fst snd]. unfold standard_voxel. rewrite Hvc. left.
        * apply elem_of_grid_cells.
          cbn [fst snd sd_height sd_length sd_width sd schem_grid]. lia.
      + apply covers_spec. cbn [r_y r_z r_x r_zlen r_xlen fst snd]. lia.
      + reflexivity. }
  destruct Hin as (r & Hin & Hcov & Hcol).
  exists r. split; [exact Hin|]. split; [exact Hcov|]. split; [exact Hcol|]. split.
  { intros Hnone. rewrite Hcol, get_color_from_block_name_eq. unfold Py.dict_get_default.
    rewrite Hnone. reflexivity. }
  destruct (emit_region_color sd scale r) as [Hne Hall].
  split; [exact Hne|].
  rewrite List.Forall_forall in Hall |- *. intros line Hline. split; [|apply Hall; exact Hline].
  unfold placement_lines. apply list_elem_of_In, in_flat_map.
  exists r. split; [apply list_elem_of_In; exact Hin|exact Hline].
Qed.

(** A single [cave_air] voxel is written as one gray brick. *)
Lemma C10_only_air_is_empty_witness :
  let sd := schem_grid 1 1 1 [ "minecraft:cave_air"%string ] in
  strip_name "minecraft:cave_air" = "cave_air"%string
  ∧ placement_lines sd false 1 = [ "1 7 -10.00 0.00 -10.00 1 0 0 0 1 0 0 0 1 3005.dat"%string ]
  ∧ ∃ r, r ∈ convert_regions sd false 1 ∧ r_color r = 7 ∧ emit_region sd 1 r ≠ [].
Proof.
  intros sd. split; [reflexivity|]. split; [reflexivity|].
  destruct (C10_only_air_is_empty 1 1 1 1 0 0 0 false [ "minecraft:cave_air"%string ]
              "minecraft:cave_air"%string) as (r & Hin & _ & _ & Hgray & Hne & _).
  - lia.
  - lia.
  - lia.
  - reflexivity.
  - vm_compute. discriminate.
  - apply (bool_decide_unpack _). vm_compute. reflexivity.
  - exists r. split; [exact Hin|]. split; [|exact Hne].
    apply Hgray. vm_compute. reflexivity.
Defined.

(** ** The text of the placement lines *)

Lemma split_nonempty (sep : ascii) (s : string) : Py.split sep s ≠ [].
Proof.
  destruct s as [|c s]; cbn [Py.split]; [discriminate|].
  destruct (Ascii.eqb c sep); [discriminate|].
  destruct (Py.split sep s); discriminate.
Qed.

Lemma split_app (sep : ascii) (a b : string) :
  Py.split sep (a +:+ String sep b) = Py.split sep a ++ Py.split sep b.
Proof.
  induction a as [|c a IH].
  - change (EmptyString +:+ String sep b) with (String sep b). cbn [Py.split].
    rewrite Ascii.eqb_refl. reflexivity.
  - change (String c a +:+ String sep b) with (String c (a +:+ String sep b)).
    cbn [Py.split]. destruct (Ascii.eqb c sep); [rewrite IH; reflexivity|].
    rewrite IH. pose proof (split_nonempty sep a) as Hne.
    destruct (Py.split sep a) as [|p ps]; [contradiction|reflexivity].
Qed.

Lemma split_lacks (sep : ascii) (s : string) :
  lacks sep s = true → Py.split sep s = [s].
Proof.
  induction s as [|c s IH]; cbn [lacks Py.split]; [reflexivity|].
  intros H. apply andb_true_iff in H as [Hc Hs]. apply negb_true_iff in Hc.
  rewrite Hc, (IH Hs). reflexivity.
Qed.

Lemma lacks_app (sep : ascii) (a b : string) :
  lacks sep (a +:+ b) = lacks sep a && lacks sep b.
Proof.
  induction a as [|c a IH]; [reflexivity|].
  change (String c a +:+ b) with (String c (a +:+ b)). cbn [lacks].
  rewrite IH. apply andb_assoc.
Qed.

Lemma string_app_assoc (a b c : string) : (a +:+ b) +:+ c = a +:+ (b +:+ c).
Proof.
  induction a as [|x a IH]; [reflexivity|].
  change (String x a +:+ b) with (String x (a +:+ b)).
  change (String x (a +:+ b) +:+ c) with (String x ((a +:+ b) +:+ c)).
  rewrite IH. reflexivity.
Qed.

Lemma string_length_app (a b : string) :
  String.length (a +:+ b) = (String.length a + String.length b)%nat.
Proof.
  induction a as [|x a IH]; [reflexivity|].
  change (String x a +:+ b) with (String x (a +:+ b)). cbn [String.length].
  rewrite IH. reflexivity.
Qed.

Lemma lacks_uint (sep : ascii) (u : Decimal.uint) :
  lacks sep "0123456789" = true → lacks sep (NilEmpty.string_of_uint u) = true.
Proof.
  intros H. cbn [lacks] in H.
  repeat (apply andb_true_iff in H as [? H]).
  induction u; cbn [NilEmpty.string_of_uint lacks]; auto using andb_true_intro.
Qed.

Lemma lacks_str_int (sep : ascii) (n : Z) :
  lacks sep "-0123456789" = true → lacks sep (Py.str_int n) = true.
Proof.
  intros H. change "-0123456789"%string with (String "-" "0123456789") in H.
  cbn [lacks] in H. apply andb_true_iff in H as [Hm Hd].
  assert (Hu : ∀ u, lacks sep (NilZero.string_of_uint u) = true).
  { intros u. pose proof (lacks_uint sep u Hd) as Hl.
    destruct u; try exact Hl. unfold NilZero.string_of_uint.
    cbn [lacks] in Hd |- *. apply andb_true_iff in Hd as [H0 _]. rewrite H0. reflexivity. }
  unfold Py.str_int, Z.to_int.
  destruct n; cbn [NilZero.string_of_int]; [apply Hu|apply Hu|].
  cbn [lacks]. rewrite Hm. apply Hu.
Qed.

Lemma str_int_digit (d : Z) :
  0 ≤ d < 10 → String.length (Py.str_int d) = 1%nat ∧ lacks "." (Py.str_int d) = true.
Proof.
  intros H.
  assert (d = 0 ∨ d = 1 ∨ d = 2 ∨ d = 3 ∨ d = 4 ∨ d = 5 ∨ d = 6 ∨ d = 7 ∨ d = 8 ∨ d = 9)
    as Hd by lia.
  repeat (destruct Hd as [->|Hd]; [split; reflexivity|]). subst d. split; reflexivity.
Qed.

Lemma lacks_fmt2f_space (v : Q) : lacks " " (Py.fmt2f v) = true.
Proof.
  unfold Py.fmt2f. rewrite !lacks_app, !lacks_str_int by reflexivity.
  destruct (Qnum v <? 0); reflexivity.
Qed.

Lemma decimals_fmt2f (v : Q) : decimals (Py.fmt2f v) = 2%nat.
Proof.
  unfold Py.fmt2f, decimals.
  set (n := Py.round_half_even _ _).
  set (sign := if Qnum v <? 0 then _ else _).
  assert (Hn : 0 ≤ n mod 100 < 100) by (apply Z.mod_pos_bound; lia).
  destruct (str_int_digit ((n mod 100) / 10)) as [Hl1 Hd1].
  { split; [apply Z.div_pos; lia|apply Z.div_lt_upper_bound; lia]. }
  destruct (str_int_digit ((n mod 100) mod 10)) as [Hl2 Hd2].
  { apply Z.mod_pos_bound; lia. }
  replace (sign +:+ Py.str_int (n / 100) +:+ "." +:+ Py.str_int (n mod 100 / 10)
             +:+ Py.str_int ((n mod 100) mod 10))
    with ((sign +:+ Py.str_int (n / 100))
            +:+ String "." (Py.str_int (n mod 100 / 10) +:+ Py.str_int ((n mod 100) mod 10))).
  2:{ rewrite !string_app_assoc. reflexivity. }
  rewrite split_app.
  rewrite (split_lacks "." (sign +:+ _)).
  2:{ rewrite lacks_app, lacks_str_int by reflexivity. subst sign.
      destruct (Qnum v <? 0); reflexivity. }
  rewrite (split_lacks "." (Py.str_int _ +:+ _)).
  2:{ rewrite lacks_app, Hd1, Hd2. reflexivity. }
  cbn [app]. rewrite string_length_app, Hl1, Hl2. reflexivity.
Qed.

Lemma rotation_strings_tokens :
  Forall (fun rotation =>
            ∃ vals, rotation_values rotation = Some vals ∧ length vals = 9%nat
                    ∧ Py.split " " rotation = map Py.str_int vals)
         rotation_strings.
Proof.
  repeat constructor; eexists; (split; [vm_compute; reflexivity|]); split; reflexivity.
Qed.

Lemma part_ids_tokens :
  Forall (fun part => lacks " " (part +:+ ".dat") = true) part_ids.
Proof. repeat constructor. Qed.

Lemma ldraw_line_tokens (color_id : Z) (x y z : Q) (rotation part : string) :
  rotation ∈ rotation_strings → part ∈ part_ids →
  ∃ vals, rotation_values rotation = Some vals ∧ length vals = 9%nat
          ∧ line_tokens (ldraw_line color_id x y z rotation part)
            = [ "1"%string; Py.str_int color_id; Py.fmt2f x; Py.fmt2f y; Py.fmt2f z ]
              ++ map Py.str_int vals ++ [ part +:+ ".dat" ].
Proof.
  intros Hrot Hpart.
  pose proof rotation_strings_tokens as Hr. rewrite List.Forall_forall in Hr.
  destruct (Hr rotation (proj1 (list_elem_of_In _ _) Hrot)) as (vals & Hvals & Hlen & Hsplit).
  pose proof part_ids_tokens as Hp. rewrite List.Forall_forall in Hp.
  specialize (Hp part (proj1 (list_elem_of_In _ _) Hpart)).
  exists vals. split; [exact Hvals|]. split; [exact Hlen|].
  unfold line_tokens, ldraw_line.
  assert (Hsp : ∀ s, " " +:+ s = String " " s) by reflexivity.
  assert (H1 : ∀ s, "1 " +:+ s = "1" +:+ String " " s) by reflexivity.
  rewrite H1, !Hsp, !split_app, Hsplit.
  rewrite (split_lacks " " (Py.str_int color_id)) by (apply lacks_str_int; reflexivity).
  rewrite !(split_lacks " " (Py.fmt2f _)) by apply lacks_fmt2f_space.
  rewrite (split_lacks " " (part +:+ ".dat")) by exact Hp.
  reflexivity.
Qed.

Lemma special_info_fields (block_name : string) (si : special_info) :
  _get_special_part_info block_name = Some si →
  si_rotation si ∈ rotation_strings ∧ si_part si ∈ part_ids.
Proof.
  assert (Hnorth : rotation_north ∈ rotation_strings)
    by (apply (bool_decide_unpack _); vm_compute; reflexivity).
  assert (Hslab : Py.dict_get_default special_parts "slab" EmptyString ∈ part_ids)
    by (apply (bool_decide_unpack _); vm_compute; reflexivity).
  assert (Hstair : Py.dict_get_default special_parts "stair" EmptyString ∈ part_ids)
    by (apply (bool_decide_unpack _); vm_compute; reflexivity).
  assert (Hrot : Forall (fun r => r ∈ rotation_strings
                                  ∧ default r (_flip_rotation_y r) ∈ rotation_strings)
                        (rotation_north :: map snd rotations)).
  { repeat constructor; apply (bool_decide_unpack _); vm_compute; reflexivity. }
  rewrite List.Forall_forall in Hrot.
  unfold _get_special_part_info.
  destruct (_parse_block_state block_name) as [base_name props].
  destruct (Py.contains "stairs" base_name || Py.contains "stair" base_name).
  - pose proof (dict_get_default_elem_of rotations
                  (Py.dict_get_default props "facing" "north"%string) rotation_north) as Hin.
    apply list_elem_of_In, Hrot in Hin. destruct Hin as [Hplain Hflip].
    destruct (String.eqb _ "top"); intros [= <-]; cbn [si_rotation si_part]; auto.
  - destruct (Py.contains "slab" base_name).
    + destruct (String.eqb _ "double"); [discriminate|].
      intros [= <-]. cbn [si_rotation si_part]. auto.
    + destruct (Py.contains "carpet" base_name); [|discriminate].
      intros [= <-]. cbn [si_rotation si_part]. auto.
Qed.

Lemma for_yzx_invariant {S : Type} (P : S → Prop) (height length width : Z)
    (body : Z → Z → Z → S → S) (s : S) :
  (∀ y z x s, P s → P (body y z x s)) → P s → P (for_yzx height length width body s).
Proof.
  intros Hstep Hs. rewrite for_yzx_foldl. revert s Hs.
  induction (grid_cells height length width) as [|c l IH]; intros s Hs; [exact Hs|].
  cbn [foldl]. apply IH, Hstep, Hs.
Qed.

Lemma Forall_snoc {A : Type} (P : A → Prop) (l : list A) (a : A) :
  Forall P l → P a → Forall P (l ++ [a]).
Proof. intros Hl Ha. apply Forall_app. split; [exact Hl|]. constructor; [exact Ha|constructor]. Qed.

Lemma merge_cell_wf (sd : schematic) (scale y z x : Z) (st : merge_state) :
  Forall region_wf st.2 → Forall region_wf (merge_cell sd scale y z x st).2.
Proof.
  intros Hwf. unfold merge_cell.
  destruct (_ || _ || _); [exact Hwf|].
  destruct st as [used out]. cbn [snd] in Hwf.
  assert (Hdefault : default_brick ∈ part_ids) by left.
  destruct (scale =? 2).
  - unfold merge_cell_scale2. cbn [snd]. apply Forall_snoc; [exact Hwf|].
    unfold region_wf. cbn [r_kind].
    pose proof (dict_get_default_elem_of scale2_brick_map
                  (best_run sd x scale2_x_lengths
                     (fun x' => negb (bool_decide ((y, z, x') ∈ used)
                                      || negb (color_grid sd y z x' =? color_grid sd y z x)
                                      || special_blocks sd y z x')))
                  default_brick) as Hin.
    apply elem_of_cons in Hin as [->|Hin]; [exact Hdefault|].
    unfold part_ids. right. rewrite !elem_of_app. auto.
  - unfold merge_cell_scale1.
    match goal with
    | |- context [Py.dict_get brick_sizes ?k] =>
        destruct (Py.dict_get brick_sizes k) as [part|] eqn:E
    end; cbn [snd]; (apply Forall_snoc; [exact Hwf|]); unfold region_wf; cbn [r_kind].
    + apply dict_get_elem_of in E. unfold part_ids. right. rewrite !elem_of_app. left.
      apply list_elem_of_fmap. eexists. split; [|exact E]. reflexivity.
    + exact Hdefault.
Qed.

Lemma special_cell_wf (sd : schematic) (y z x : Z) (st : merge_state) :
  Forall region_wf st.2 → Forall region_wf (special_cell sd y z x st).2.
Proof.
  intros Hwf. destruct st as [used out]. unfold special_cell. cbn [snd] in Hwf.
  destruct (_ || _ || _); [exact Hwf|].
  destruct (match sd_block_names sd with Some _ => _ | None => _ end) as [name|];
    [|exact Hwf].
  destruct (String.eqb name EmptyString); [exact Hwf|].
  destruct (_get_special_part_info name) as [si|] eqn:E; [|exact Hwf].
  cbn [snd]. apply Forall_snoc; [exact Hwf|]. unfold region_wf. cbn [r_kind]. eauto.
Qed.

Lemma convert_regions_wf (sd : schematic) (optimize : bool) (scale : Z) :
  Forall region_wf (convert_regions sd optimize scale).
Proof.
  unfold convert_regions. destruct optimize.
  - unfold _convert_optimized.
    apply (for_yzx_invariant (fun st => Forall region_wf st.2)).
    + intros y z x st. apply special_cell_wf.
    + unfold merge_pass. apply (for_yzx_invariant (fun st => Forall region_wf st.2)).
      * intros y z x st. apply merge_cell_wf.
      * constructor.
  - unfold _convert_standard. apply (for_yzx_invariant (Forall region_wf)).
    + intros y z x out Hwf. unfold standard_voxel.
      destruct (voxel_color sd y z x) as [[color_id block_name]|];
        [|rewrite app_nil_r; exact Hwf].
      apply Forall_snoc; [exact Hwf|]. unfold region_wf. cbn [r_kind].
      destruct block_name as [name|]; [|exact I].
      destruct (String.eqb name EmptyString); [exact I|].
      destruct (_get_special_part_info name) eqn:E; [eauto|exact I].
    + constructor.
Qed.

Lemma emit_region_lines (sd : schematic) (scale : Z) (r : region) :
  region_wf r →
  Forall (fun line => ∃ color_id x y z rotation part,
                        rotation ∈ rotation_strings ∧ part ∈ part_ids
                        ∧ line = ldraw_line color_id x y z rotation part)
         (emit_region sd scale r).
Proof.
  assert (Hid : identity_rotation ∈ rotation_strings)
    by (apply (bool_decide_unpack _); vm_compute; reflexivity).
  assert (H3003 : "3003"%string ∈ part_ids)
    by (apply (bool_decide_unpack _); vm_compute; reflexivity).
  assert (H3022 : "3022"%string ∈ part_ids)
    by (apply (bool_decide_unpack _); vm_compute; reflexivity).
  assert (Hdefault : default_brick ∈ part_ids) by left.
  unfold region_wf, emit_region. destruct (r_kind r) as [brick_type|special]; intros Hwf.
  - unfold emit_run. destruct (scale =? 2); repeat constructor; eauto 12.
  - unfold emit_voxel. destruct (scale =? 2).
    + unfold _emit_block_2x. destruct special as [[p ro o f half|p ro o t|p ro o]|].
      * destruct (String.eqb half "bottom"); repeat constructor; eauto 12.
      * destruct (String.eqb t "bottom"); repeat constructor; eauto 12.
      * repeat constructor; eauto 12.
      * repeat constructor; eauto 12.
    + destruct special as [si|].
      * destruct Hwf as [name Hname]. apply special_info_fields in Hname as [Hr Hp].
        repeat constructor; eauto 12.
      * repeat constructor; eauto 12.
Qed.

(** C6 (as amended): every placement line splits at the spaces into
    fifteen fields: the line type 1, the colour code, the three coordinates
    of the position, each written with two decimals, the nine values of the
    rotation matrix, and the part number followed by [.dat]. *)
Theorem C6_placement_line_format (sd : schematic) (optimize : bool) (scale : Z)
    (line : string) :
  line ∈ placement_lines sd optimize scale →
  ∃ (color_id : Z) (x y z : Q) (rotation : list Z) (part : string),
    length rotation = 9%nat
    ∧ part ∈ part_ids
    ∧ line_tokens line
      = [ "1"%string; Py.str_int color_id; Py.fmt2f x; Py.fmt2f y; Py.fmt2f z ]
        ++ map Py.str_int rotation ++ [ part +:+ ".dat" ]
    ∧ map decimals (take 3 (drop 2 (line_tokens line))) = [ 2; 2; 2 ]%nat.
Proof.
  intros Hline. unfold placement_lines in Hline.
  apply list_elem_of_In, in_flat_map in Hline as (r & Hr & Hline).
  pose proof (convert_regions_wf sd optimize scale) as Hwf.
  rewrite List.Forall_forall in Hwf. specialize (Hwf r Hr).
  pose proof (emit_region_lines sd scale r Hwf) as Hlines.
  rewrite List.Forall_forall in Hlines.
  destruct (Hlines line Hline) as (color_id & x & y & z & rot & part & Hrot & Hpart & ->).
  destruct (ldraw_line_tokens color_id x y z rot part Hrot Hpart)
    as (vals & _ & Hlen & Htok).
  exists color_id, x, y, z, vals, part.
  split; [exact Hlen|]. split; [exact Hpart|]. split; [exact Htok|].
  rewrite Htok. cbn [app drop take map]. rewrite !decimals_fmt2f. reflexivity.
Qed.

(** The line of a single stone voxel. *)
Lemma C6_placement_line_witness :
  let sd := schem_grid 1 1 1 [ "minecraft:stone"%string ] in
  let line := "1 71 -10.00 0.00 -10.00 1 0 0 0 1 0 0 0 1 3005.dat"%string in
  line ∈ placement_lines sd false 1
  ∧ map decimals (take 3 (drop 2 (line_tokens line))) = [ 2; 2; 2 ]%nat.
Proof.
  intros sd line.
  assert (Hin : line ∈ placement_lines sd false 1) by (vm_compute; left).
  split; [exact Hin|].
  destruct (C6_placement_line_format sd false 1 line Hin)
    as (color_id & x & y & z & rotation & part & _ & _ & _ & Hdec).
  exact Hdec.
Defined.

(** The coordinates of that line have two decimals, not three. *)
Lemma C6_counterexample :
  let sd := schem_grid 1 1 1 [ "minecraft:stone"%string ] in
  placement_lines sd false 1 = [ "1 71 -10.00 0.00 -10.00 1 0 0 0 1 0 0 0 1 3005.dat"%string ]
  ∧ ¬ Forall (fun line =>
                Forall (fun token => decimals token = 3%nat)
                       (take 3 (drop 2 (line_tokens line))))
             (placement_lines sd false 1).
Proof.
  intros sd. split; [reflexivity|]. intros H.
  apply Forall_inv, Forall_inv in H. vm_compute in H. discriminate H.
Qed.

(** * Further properties *)

(** ** Varint codec: values, prefixes and concatenation *)

Lemma read_varint_nonneg (data : list Z) (value shift : Z) :
  0 ≤ value → 0 ≤ shift → 0 ≤ (read_varint data value shift).1.
Proof.
  revert value shift. induction data as [|b rest IH]; intros value shift Hv Hs; [exact Hv|].
  cbn [read_varint].
  assert (Hv' : 0 ≤ Z.lor value (Z.shiftl (Z.land (unsigned_byte b) 127) shift)).
  { apply Z.lor_nonneg. split; [exact Hv|]. apply Z.shiftl_nonneg.
    apply Z.land_nonneg. right. lia. }
  destruct (Z.land (unsigned_byte b) 128 =? 0); [exact Hv'|].
  apply IH; [exact Hv'|lia].
Qed.

Lemma decode_varint_loop_nonneg (data : list Z) (n : Z) (result : list Z) :
  Forall (fun v => 0 ≤ v) result →
  Forall (fun v => 0 ≤ v) (decode_varint_loop data n result).
Proof.
  funelim (decode_varint_loop data n result); simp decode_varint_loop; intros Hacc.
  destruct (Z.of_nat (length result) <? expected_length); [|exact Hacc].
  apply H. apply Forall_app. split; [exact Hacc|].
  constructor; [|constructor]. apply read_varint_nonneg; lia.
Qed.

(** X1: whatever the integers of the stream (signed or unsigned bytes, or
    not bytes at all) and whatever the expected count, no decoded value is
    negative. *)
Theorem X1_varint_values_nonnegative (data : list Z) (n : Z) :
  Forall (fun v => 0 ≤ v) (_decode_varint_array data n).
Proof. apply decode_varint_loop_nonneg. constructor. Qed.

Lemma decode_varint_loop_extends (data : list Z) (n : Z) (result : list Z) :
  ∃ more, decode_varint_loop data n result = result ++ more.
Proof.
  funelim (decode_varint_loop data n result); simp decode_varint_loop.
  - exists []. rewrite app_nil_r. reflexivity.
  - destruct (Z.of_nat (length result) <? expected_length).
    + destruct H as [more Hmore]. rewrite Hmore. rewrite <- app_assoc. eauto.
    + exists []. rewrite app_nil_r. reflexivity.
Qed.

Lemma decode_varint_loop_full (data : list Z) (n : Z) (result : list Z) :
  n ≤ Z.of_nat (length result) → decode_varint_loop data n result = result.
Proof.
  intros Hn. destruct data as [|b rest]; simp decode_varint_loop; [reflexivity|].
  destruct (Z.ltb_spec (Z.of_nat (length result)) n); [lia|reflexivity].
Qed.

Lemma decode_varint_loop_take (data : list Z) (n big : Z) (result : list Z) :
  Z.of_nat (length result) ≤ n →
  Z.of_nat (length result + length data) ≤ big →
  decode_varint_loop data n result
  = take (Z.to_nat n) (decode_varint_loop data big result).
Proof.
  revert big. funelim (decode_varint_loop data n result); intros big Hn Hbig;
    simp decode_varint_loop.
  - rewrite take_ge; [reflexivity|lia].
  - cbn [length] in Hbig.
    destruct (Z.ltb_spec (Z.of_nat (length result)) big); [|lia].
    destruct (Z.ltb_spec (Z.of_nat (length result)) expected_length).
    + apply H.
      * rewrite length_app. cbn [length]. lia.
      * rewrite length_app. cbn [length].
        pose proof (read_varint_consumes b rest 0 0). lia.
    + destruct (decode_varint_loop_extends (read_varint (b :: rest) 0 0).2 big
                  (result ++ [(read_varint (b :: rest) 0 0).1])) as [more ->].
      rewrite <- !app_assoc. rewrite take_app_le by lia. rewrite take_ge; [reflexivity|lia].
Qed.

(** X2: decoding with an expected count [n] gives the first [n] values of
    the decoding that is only stopped by the end of the stream (the count
    set to the number of bytes): a smaller count never changes the values it
    keeps. *)
Theorem X2_varint_count_takes_prefix (data : list Z) (n : Z) :
  _decode_varint_array data n
  = take (Z.to_nat n) (_decode_varint_array data (Z.of_nat (length data))).
Proof.
  unfold _decode_varint_array. destruct (Z.le_gt_cases 0 n) as [Hn|Hn].
  - apply decode_varint_loop_take; cbn [length]; lia.
  - rewrite decode_varint_loop_full by (cbn [length]; lia).
    replace (Z.to_nat n) with 0%nat by lia. reflexivity.
Qed.

Lemma decode_varint_loop_shift (data : list Z) (n : Z) (result : list Z) :
  decode_varint_loop data n result
  = result ++ decode_varint_loop data (n - Z.of_nat (length result)) [].
Proof.
  remember (length data) as k eqn:Hk.
  assert (Hle : (length data ≤ k)%nat) by lia. clear Hk.
  revert data n result Hle. induction k as [|k IH]; intros data n result Hle.
  - destruct data; [|cbn [length] in Hle; lia]. simp decode_varint_loop.
    rewrite app_nil_r. reflexivity.
  - destruct data as [|b rest]; simp decode_varint_loop.
    { rewrite app_nil_r. reflexivity. }
    cbn [length] in Hle |- *. change (Z.of_nat 0) with 0.
    pose proof (read_varint_consumes b rest 0 0) as Hshort.
    destruct (Z.ltb_spec (Z.of_nat (length result)) n);
      destruct (Z.ltb_spec 0 (n - Z.of_nat (length result))); try lia.
    + rewrite (IH _ n (result ++ _)) by lia.
      rewrite (IH _ (n - Z.of_nat (length result)) ([] ++ _)) by lia.
      cbn [app]. rewrite length_app. cbn [length]. rewrite <- app_assoc. cbn [app].
      do 3 f_equal. lia.
    + rewrite app_nil_r. reflexivity.
Qed.

Lemma decode_varint_loop_app (pre post : list Z) (n : Z) (result : list Z) :
  ends_on_boundary pre = true →
  decode_varint_loop (pre ++ post) n result
  = decode_varint_loop post n (decode_varint_loop pre n result).
Proof.
  funelim (decode_varint_loop pre n result); intros Hb; simp decode_varint_loop.
  - reflexivity.
  - change ((b :: rest) ++ post) with (b :: (rest ++ post)). simp decode_varint_loop.
    destruct (Z.ltb_spec (Z.of_nat (length result)) expected_length).
    + change (b :: (rest ++ post)) with ((b :: rest) ++ post).
      rewrite read_varint_app by (auto; discriminate). cbn [fst snd].
      apply H. apply read_varint_rest_boundary. exact Hb.
    + rewrite decode_varint_loop_full by lia. reflexivity.
Qed.

(** X3: when the first part of a stream stops where a value stops, decoding
    the whole stream is decoding the first part and then the rest with the
    count that is left. *)
Theorem X3_varint_concatenation (pre post : list Z) (n : Z) :
  ends_on_boundary pre = true →
  _decode_varint_array (pre ++ post) n
  = _decode_varint_array pre n
      ++ _decode_varint_array post (n - Z.of_nat (length (_decode_varint_array pre n))).
Proof.
  intros Hb. unfold _decode_varint_array.
  rewrite decode_varint_loop_app by exact Hb. apply decode_varint_loop_shift.
Qed.

(** The stream [1, 2] followed by the two-byte value 300. *)
Lemma X3_varint_concatenation_witness :
  ends_on_boundary [1; 2] = true
  ∧ _decode_varint_array ([1; 2] ++ [172; 2]) 3 = [1; 2] ++ [300].
Proof.
  split; [reflexivity|].
  exact (X3_varint_concatenation [1; 2] [172; 2] 3 eq_refl).
Defined.

Lemma lor_shifted_is_sum (value d shift : Z) :
  0 ≤ value < 2 ^ shift → 0 ≤ shift →
  Z.lor value (Z.shiftl d shift) = value + d * 2 ^ shift.
Proof.
  intros Hv Hs.
  assert (Hdisj : Z.land value (Z.shiftl d shift) = 0).
  { apply Z.bits_inj'. intros k Hk. rewrite Z.land_spec, Z.bits_0.
    destruct (Z.lt_ge_cases k shift) as [Hlt|Hge].
    - rewrite (Z.shiftl_spec_low d shift k Hlt). apply andb_false_r.
    - destruct (Z.eq_dec value 0) as [->|Hne]; [rewrite Z.bits_0; reflexivity|].
      rewrite (Z.bits_above_log2 value k); [reflexivity|lia|].
      assert (Z.log2 value < shift) by (apply Z.log2_lt_pow2; lia). lia. }
  rewrite <- Z.lxor_lor by exact Hdisj.
  rewrite <- Z.add_nocarry_lxor by exact Hdisj.
  rewrite Z.shiftl_mul_pow2 by exact Hs. reflexivity.
Qed.

Lemma read_varint_group (bs : list Z) (l : Z) (rest : list Z) (value shift : Z) :
  Forall (fun b => continues b = true) bs → continues l = false →
  0 ≤ value < 2 ^ shift → 0 ≤ shift →
  read_varint (bs ++ l :: rest) value shift
  = (value + 2 ^ shift * group_value (bs ++ [l]), rest).
Proof.
  intros Hbs Hl. revert value shift.
  assert (Hlow : ∀ b, Z.land (unsigned_byte b) 127 = unsigned_byte b mod 128).
  { intros b. change 127 with (Z.ones 7). rewrite Z.land_ones by lia. reflexivity. }
  induction Hbs as [|b bs Hb _ IH]; intros value shift Hv Hs; cbn [app read_varint group_value].
  - unfold continues in Hl. apply negb_false_iff in Hl. rewrite Hl.
    rewrite lor_shifted_is_sum, Hlow by assumption. f_equal. lia.
  - unfold continues in Hb. apply negb_true_iff in Hb. rewrite Hb.
    rewrite lor_shifted_is_sum, Hlow by assumption.
    pose proof (Z.mod_pos_bound (unsigned_byte b) 128 ltac:(lia)) as Hm.
    assert (Hpow : 2 ^ (shift + 7) = 2 ^ shift * 128).
    { rewrite Z.pow_add_r by lia. reflexivity. }
    rewrite IH; [|nia|lia]. rewrite Hpow. f_equal. lia.
Qed.

(** X4: a group of bytes with the continuation bit set on all but the last
    decodes to the number whose base-128 digits, least significant first,
    are the low seven bits of the bytes, and the bytes after the group are
    left for the next value. *)
Theorem X4_varint_group_value (bs : list Z) (l : Z) (rest : list Z) (n : Z) :
  Forall (fun b => continues b = true) bs → continues l = false → 1 ≤ n →
  read_varint (bs ++ l :: rest) 0 0 = (group_value (bs ++ [l]), rest)
  ∧ _decode_varint_array (bs ++ [l]) n = [ group_value (bs ++ [l]) ].
Proof.
  intros Hbs Hl Hn.
  assert (Hread : ∀ rest', read_varint (bs ++ l :: rest') 0 0
                           = (group_value (bs ++ [l]), rest')).
  { intros rest'. rewrite (read_varint_group bs l rest' 0 0) by (auto; lia).
    f_equal. lia. }
  split; [apply Hread|].
  unfold _decode_varint_array. pose proof (Hread []) as Hr.
  remember (group_value (bs ++ [l])) as v eqn:Hv. clear Hv Hread.
  destruct (bs ++ [l]) as [|b tl] eqn:E; [destruct bs; discriminate E|].
  simp decode_varint_loop. cbn [length].
  destruct (Z.ltb_spec (Z.of_nat 0) n); [|lia].
  rewrite Hr. cbn [fst snd app]. simp decode_varint_loop. reflexivity.
Qed.

(** The two bytes 0xAC 0x02 are 44 + 128 * 2 = 300. *)
Lemma X4_varint_group_value_witness :
  Forall (fun b => continues b = true) [172]
  ∧ continues 2 = false
  ∧ _decode_varint_array ([172] ++ [2]) 1 = [ 300 ].
Proof.
  split; [repeat constructor|]. split; [reflexivity|].
  refine (proj2 (X4_varint_group_value [172] 2 [] 1 _ _ _));
    [repeat constructor|reflexivity|lia].
Defined.

(** ** Loaders: what a successful load returns *)

Lemma bind_ok {A B : Type} (r : py_result A) (k : A → py_result B) (b : B) :
  r ≫= k = Ok b → ∃ a, r = Ok a ∧ k a = Ok b.
Proof. destruct r as [a|e]; [eauto|discriminate]. Qed.


Lemma reshape_ok_nonneg (n height length width : Z) :
  0 ≤ height → 0 ≤ length → 0 ≤ width →
  reshape_ok n height length width = true → n = width * height * length.
Proof.
  intros Hh Hl Hw. unfold reshape_ok.
  destruct (Z.leb_spec 0 height); [|lia]. destruct (Z.leb_spec 0 length); [|lia].
  destruct (Z.leb_spec 0 width); [|lia]. cbn [andb]. intros Heq%Z.eqb_eq. lia.
Qed.





Lemma unsigned_byte_mod (b : Z) : -128 ≤ b < 128 → unsigned_byte b = b mod 256.
Proof.
  intros H. unfold unsigned_byte. destruct (Z.leb_spec 0 b).
  - rewrite Z.mod_small by lia. reflexivity.
  - apply (Z.mod_unique b 256 (-1)); lia.
Qed.

(** X7: a legacy load that succeeds returns a grid without block names
    whose block ids are the signed bytes of [Blocks] reduced modulo 256,
    each between 0 and 255, one per byte; with non-negative dimensions
    there are width x height x length of them. *)
Theorem X7_legacy_load_result (nbt_file : compound) (sd : schematic) (bytes : list Z) :
  _load_schematic_format nbt_file = Ok sd →
  Py.dict_get nbt_file "Blocks" = Some (TagByteArray bytes) →
  Forall (fun b => -128 ≤ b < 128) bytes →
  sd_block_names sd = None
  ∧ sd_blocks sd = map (fun b => b mod 256) bytes
  ∧ Forall (fun v => 0 ≤ v < 256) (sd_blocks sd)
  ∧ (0 ≤ sd_height sd → 0 ≤ sd_length sd → 0 ≤ sd_width sd →
     Z.of_nat (length bytes) = sd_width sd * sd_height sd * sd_length sd).
Proof.
  unfold _load_schematic_format. intros H Hblocks Hbytes.
  apply bind_ok in H; destruct H as (width & Hw & H).
  apply bind_ok in H; destruct H as (height & Hh & H).
  apply bind_ok in H; destruct H as (length & Hl & H).
  apply bind_ok in H; destruct H as (blocks & Hb & H).
  unfold item in Hb. rewrite Hblocks in Hb. cbn in Hb. injection Hb as <-.
  apply bind_ok in H; destruct H as (data & Hd & H).
  destruct (reshape_ok _ height length width) eqn:Hshape; [|discriminate H].
  injection H as <-. cbn [sd_block_names sd_blocks sd_width sd_height sd_length].
  assert (Hmap : map unsigned_byte bytes = map (fun b => b mod 256) bytes).
  { apply map_ext_in. intros b Hin. rewrite List.Forall_forall in Hbytes.
    apply unsigned_byte_mod, Hbytes, Hin. }
  split; [reflexivity|]. split; [exact Hmap|]. split.
  - rewrite Hmap. apply List.Forall_forall. intros v Hin.
    apply in_map_iff in Hin as (b & <- & _). apply Z.mod_pos_bound. lia.
  - intros H0 H1 H2. rewrite length_map in Hshape.
    apply (reshape_ok_nonneg _ height length width); assumption.
Qed.

(** A one-voxel legacy file whose block byte is -1, that is id 255. *)
Lemma X7_legacy_load_result_witness :
  let file : compound :=
    [ ("Width", TagInt 1); ("Height", TagInt 1); ("Length", TagInt 1);
      ("Blocks", TagByteArray [-1]); ("Data", TagByteArray [0]) ]%string in
  _load_schematic_format file = Ok (legacy_grid 1 1 1 [-1] (Some [0]))
  ∧ sd_blocks (legacy_grid 1 1 1 [-1] (Some [0])) = [ 255 ].
Proof.
  intros file.
  assert (Hload : _load_schematic_format file = Ok (legacy_grid 1 1 1 [-1] (Some [0])))
    by reflexivity.
  split; [exact Hload|].
  destruct (X7_legacy_load_result file _ [-1] Hload eq_refl) as (_ & Hb & _).
  - repeat constructor; lia.
  - exact Hb.
Defined.

(** ** Block names: namespace and state do not matter *)

Lemma prefix_empty (s : string) : String.prefix EmptyString s = true.
Proof. destruct s; reflexivity. Qed.

Lemma prefix_app_mono (p a b : string) :
  String.prefix p a = true → String.prefix p (a +:+ b) = true.
Proof.
  revert a. induction p as [|c p IH]; intros a H; [apply prefix_empty|].
  destruct a as [|d a]; [discriminate H|].
  change (String d a +:+ b) with (String d (a +:+ b)). cbn [String.prefix] in H |- *.
  destruct (ascii_dec c d); [apply IH; exact H|discriminate H].
Qed.

Lemma prefix_self_app (p s : string) : String.prefix p (p +:+ s) = true.
Proof.
  induction p as [|c p IH]; [apply prefix_empty|].
  change (String c p +:+ s) with (String c (p +:+ s)). cbn [String.prefix].
  destruct (ascii_dec c c); [exact IH|contradiction].
Qed.

Lemma contains_empty (s : string) : Py.contains EmptyString s = true.
Proof. destruct s; reflexivity. Qed.

Lemma contains_app_false (old a b : string) :
  Py.contains old (a +:+ b) = false → Py.contains old a = false.
Proof.
  induction a as [|c a IH]; intros H.
  - change (EmptyString +:+ b) with b in H. cbn [Py.contains].
    destruct old as [|o old]; [|reflexivity].
    rewrite contains_empty in H. discriminate H.
  - change (String c a +:+ b) with (String c (a +:+ b)) in H. cbn [Py.contains] in H |- *.
    apply orb_false_iff in H as [Hp Hc]. rewrite (IH Hc), orb_false_r.
    destruct (String.prefix old (String c a)) eqn:E; [|reflexivity].
    apply (prefix_app_mono _ _ b) in E.
    change (String c a +:+ b) with (String c (a +:+ b)) in E. congruence.
Qed.

Lemma replace_absent (old new s : string) :
  Py.contains old s = false → Py.replace old new s = s.
Proof.
  unfold Py.replace. induction s as [|c s IH]; intros H; [reflexivity|].
  cbn [Py.contains] in H. apply orb_false_iff in H as [Hp Hc].
  cbn [Py.replace_from]. rewrite Hp, (IH Hc). reflexivity.
Qed.

Lemma replace_from_skip (old new a s : string) :
  Py.replace_from old new (String.length a) (a +:+ s) = Py.replace_from old new 0 s.
Proof.
  induction a as [|c a IH]; [reflexivity|].
  change (String c a +:+ s) with (String c (a +:+ s)). cbn [String.length Py.replace_from].
  exact IH.
Qed.

Lemma replace_leading (old new s : string) :
  old ≠ EmptyString →
  Py.replace old new (old +:+ s) = new +:+ Py.replace old new s.
Proof.
  intros Hne. unfold Py.replace. destruct old as [|c old]; [contradiction|].
  pose proof (prefix_self_app (String c old) s) as Hp.
  change (String c old +:+ s) with (String c (old +:+ s)) in Hp |- *.
  cbn [Py.replace_from]. rewrite Hp.
  replace (String.length (String c old) - 1)%nat with (String.length old)
    by (cbn [String.length]; lia).
  rewrite replace_from_skip. reflexivity.
Qed.

Lemma lacks_contains (c : ascii) (s : string) :
  lacks c s = true → Py.contains (String c EmptyString) s = false.
Proof.
  induction s as [|d s IH]; [reflexivity|].
  cbn [lacks Py.contains String.prefix]. intros H. apply andb_true_iff in H as [Hd Hs].
  rewrite (IH Hs), orb_false_r. apply negb_true_iff in Hd.
  destruct (ascii_dec c d) as [->|]; [|reflexivity].
  rewrite Ascii.eqb_refl in Hd. discriminate Hd.
Qed.

Lemma contains_char_app (c : ascii) (a b : string) :
  Py.contains (String c EmptyString) (a +:+ String c b) = true.
Proof.
  induction a as [|d a IH].
  - change (EmptyString +:+ String c b) with (String c b). cbn [Py.contains String.prefix].
    destruct (ascii_dec c c); [|contradiction]. rewrite prefix_empty. reflexivity.
  - change (String d a +:+ String c b) with (String d (a +:+ String c b)).
    cbn [Py.contains]. rewrite IH. apply orb_true_r.
Qed.

Lemma strip_name_plain (base : string) :
  lacks "[" base = true → Py.contains "minecraft:" base = false →
  strip_name base = base.
Proof.
  intros Hb Hm. unfold strip_name. rewrite (replace_absent _ _ _ Hm).
  rewrite (lacks_contains "[" base Hb). reflexivity.
Qed.

Lemma strip_name_state (base state : string) :
  lacks "[" base = true → Py.contains "minecraft:" (base +:+ "[" +:+ state) = false →
  strip_name (base +:+ "[" +:+ state) = base.
Proof.
  intros Hb Hm. unfold strip_name. rewrite (replace_absent _ _ _ Hm).
  change ("[" +:+ state) with (String "[" state).
  rewrite contains_char_app, split_app, (split_lacks "[" base Hb). reflexivity.
Qed.

Lemma strip_name_namespace (name : string) :
  Py.contains "minecraft:" name = false →
  strip_name ("minecraft:" +:+ name) = strip_name name.
Proof.
  intros Hm. unfold strip_name. rewrite replace_leading by discriminate.
  change (EmptyString +:+ ?s) with s. reflexivity.
Qed.

(** X8: the namespace prefix and the bracketed state never matter to the
    classification: for a base name without an opening bracket, the four
    spellings of the name, with or without [minecraft:] and with or without
    a state suffix, have the same base name, colour, skip decision and
    block id, and [_parse_block_state] returns that base name. *)
Theorem X8_namespace_and_state_do_not_matter (base state name : string) :
  lacks "[" base = true →
  Py.contains "minecraft:" (base +:+ "[" +:+ state) = false →
  name ∈ [ base; "minecraft:" +:+ base; base +:+ "[" +:+ state;
           "minecraft:" +:+ base +:+ "[" +:+ state ] →
  strip_name name = base
  ∧ _get_color_from_block_name name = Py.dict_get_default block_to_color base 7
  ∧ _is_skip_block name = bool_decide (base ∈ skip_blocks)
  ∧ _block_name_to_id name = Py.dict_get_default name_to_id base 1
  ∧ (_parse_block_state name).1 = base.
Proof.
  intros Hb Hm Hname.
  pose proof (contains_app_false _ _ _ Hm) as Hmb.
  assert (Hstrip : strip_name name = base).
  { repeat (apply elem_of_cons in Hname as [->|Hname]).
    - apply strip_name_plain; assumption.
    - rewrite strip_name_namespace by exact Hmb. apply strip_name_plain; assumption.
    - apply strip_name_state; assumption.
    - rewrite strip_name_namespace by exact Hm. apply strip_name_state; assumption.
    - inversion Hname. }
  split; [exact Hstrip|].
  split; [rewrite get_color_from_block_name_eq, Hstrip; reflexivity|].
  split; [unfold _is_skip_block; rewrite Hstrip; reflexivity|].
  split; [unfold _block_name_to_id; rewrite Hstrip; reflexivity|].
  rewrite <- Hstrip. unfold _parse_block_state, strip_name.
  destruct (Py.contains "[" _); [|reflexivity]. cbn [fst].
  destruct (Py.split "[" _); reflexivity.
Qed.

(** The four spellings of oak stairs. *)
Lemma X8_namespace_and_state_witness :
  lacks "[" "oak_stairs" = true
  ∧ _get_color_from_block_name "minecraft:oak_stairs[facing=east,half=top]" = 70
  ∧ _get_color_from_block_name "oak_stairs" = 70.
Proof.
  split; [reflexivity|].
  pose proof (fun name => X8_namespace_and_state_do_not_matter
                            "oak_stairs" "facing=east,half=top]" name eq_refl eq_refl) as H.
  split.
  - refine (proj1 (proj2 (H "minecraft:oak_stairs[facing=east,half=top]"%string _))).
    do 3 right. left.
  - refine (proj1 (proj2 (H "oak_stairs"%string _))). left.
Defined.

(** ** Special parts *)

Lemma rotation_strings_proper :
  Forall (fun r => ∃ m, rotation_values r = Some m ∧ is_rotation m) rotation_strings.
Proof.
  repeat constructor; eexists; (split; [vm_compute; reflexivity|]);
    repeat split; reflexivity.
Qed.

(** X9: whatever the block name, the special part information, when there
    is one, names the slope 54200 or the plate 3024, a vertical offset of 0,
    16 or 24, and a rotation string that reads as a proper rotation matrix
    (orthogonal, determinant 1), flipped stairs included. *)
Theorem X9_special_info_is_well_formed (block_name : string) (si : special_info) :
  _get_special_part_info block_name = Some si →
  si_part si ∈ [ "54200"; "3024" ]%string
  ∧ si_y_offset si ∈ [ 0; 16; 24 ]
  ∧ ∃ m, rotation_values (si_rotation si) = Some m ∧ is_rotation m.
Proof.
  intros H. pose proof (special_info_fields block_name si H) as [Hrot _].
  pose proof rotation_strings_proper as Hp. rewrite List.Forall_forall in Hp.
  split; [|split; [|apply Hp, list_elem_of_In, Hrot]];
    revert H; unfold _get_special_part_info;
    destruct (_parse_block_state block_name) as [base_name props];
    destruct (_ || _).
  - destruct (String.eqb _ "top"); intros [= <-]; left.
  - destruct (Py.contains "slab" base_name).
    + destruct (String.eqb _ "double"); [discriminate|]. intros [= <-]. right. left.
    + destruct (Py.contains "carpet" base_name); [|discriminate]. intros [= <-]. right. left.
  - destruct (String.eqb _ "top"); intros [= <-]; cbn [si_y_offset]; [do 2 right; left|left].
  - destruct (Py.contains "slab" base_name).
    + destruct (String.eqb _ "double"); [discriminate|]. intros [= <-]. cbn [si_y_offset].
      destruct (String.eqb _ "top"); [left|right; left].
    + destruct (Py.contains "carpet" base_name); [|discriminate]. intros [= <-]. right. left.
Qed.

(** An inverted stair facing west. *)
Lemma X9_special_info_witness :
  _get_special_part_info "minecraft:stone_stairs[facing=west,half=top]"
  = Some (StairInfo "54200" "0 0 1 0 -1 0 1 0 0" 24 "west" "top")
  ∧ ∃ m, rotation_values "0 0 1 0 -1 0 1 0 0" = Some m ∧ is_rotation m.
Proof.
  split; [reflexivity|].
  exact (proj2 (proj2 (X9_special_info_is_well_formed
                         "minecraft:stone_stairs[facing=west,half=top]" _ eq_refl))).
Defined.

Lemma prefix_shorter (a b s : string) :
  String.prefix (a +:+ b) s = true → String.prefix a s = true.
Proof.
  revert s. induction a as [|c a IH]; intros s H; [apply prefix_empty|].
  change (String c a +:+ b) with (String c (a +:+ b)) in H.
  destruct s as [|d s]; [discriminate H|]. cbn [String.prefix] in H |- *.
  destruct (ascii_dec c d); [apply IH; exact H|discriminate H].
Qed.

Lemma contains_shorter (a b s : string) :
  Py.contains (a +:+ b) s = true → Py.contains a s = true.
Proof.
  induction s as [|c s IH]; cbn [Py.contains].
  - apply prefix_shorter.
  - intros H. apply orb_true_iff in H as [H|H].
    + rewrite (prefix_shorter _ _ _ H). reflexivity.
    + rewrite (IH H). apply orb_true_r.
Qed.

(** X10: which shape a block name gets is decided by its base name alone,
    except for double slabs: a base name containing [stair] is a stair (also
    when it contains [slab] or [carpet]; the test for [stairs] adds
    nothing); otherwise one containing [slab] is a slab, unless its [type]
    is [double], which is a regular block; otherwise one containing
    [carpet] is a carpet; every other name is a regular block. *)
Theorem X10_shape_classification (block_name : string) :
  let base_name := (_parse_block_state block_name).1 in
  let props := (_parse_block_state block_name).2 in
  match _get_special_part_info block_name with
  | Some (StairInfo _ _ _ facing half) =>
      Py.contains "stair" base_name = true
      ∧ facing = Py.dict_get_default props "facing" "north"%string
      ∧ half = Py.dict_get_default props "half" "bottom"%string
  | Some (SlabInfo _ _ _ slab_type) =>
      Py.contains "stair" base_name = false
      ∧ Py.contains "slab" base_name = true
      ∧ slab_type = Py.dict_get_default props "type" "bottom"%string
      ∧ slab_type ≠ "double"%string
  | Some (CarpetInfo _ _ _) =>
      Py.contains "stair" base_name = false
      ∧ Py.contains "slab" base_name = false
      ∧ Py.contains "carpet" base_name = true
  | None =>
      Py.contains "stair" base_name = false
      ∧ (if Py.contains "slab" base_name
         then Py.dict_get_default props "type" "bottom"%string = "double"%string
         else Py.contains "carpet" base_name = false)
  end.
Proof.
  intros base_name props. subst base_name props. unfold _get_special_part_info.
  destruct (_parse_block_state block_name) as [base_name props]. cbn [fst snd].
  assert (Hs : Py.contains "stairs" base_name || Py.contains "stair" base_name
               = Py.contains "stair" base_name).
  { destruct (Py.contains "stairs" base_name) eqn:E; [|reflexivity].
    symmetry. apply (contains_shorter "stair" "s"). exact E. }
  rewrite Hs. destruct (Py.contains "stair" base_name).
  - destruct (String.eqb _ "top"); auto.
  - destruct (Py.contains "slab" base_name).
    + destruct (String.eqb _ "double") eqn:E.
      * apply String.eqb_eq in E. auto.
      * apply String.eqb_neq in E. auto.
    + destruct (Py.contains "carpet" base_name); auto.
Qed.

(** ** Writing and reading integers; the flip of a rotation *)

Lemma parse_digits_acc (u : Decimal.uint) (acc : positive) :
  Py.parse_digits (Z.pos acc) (NilEmpty.string_of_uint u)
  = Some (Z.pos (Pos.of_uint_acc u acc)).
Proof.
  revert acc.
  induction u as [|u IH|u IH|u IH|u IH|u IH|u IH|u IH|u IH|u IH|u IH]; intros acc;
    [reflexivity|..];
    cbn [NilEmpty.string_of_uint Py.parse_digits Pos.of_uint_acc];
    (match goal with
     | |- match Py.digit_of ?c with _ => _ end = _ =>
         let d := eval vm_compute in (Py.digit_of c) in
         change (Py.digit_of c) with d
     end);
    cbv beta iota; rewrite <- IH; f_equal; lia.
Qed.

Lemma parse_digits_uint (u : Decimal.uint) :
  Py.parse_digits 0 (NilEmpty.string_of_uint u) = Some (Z.of_N (Pos.of_uint u)).
Proof.
  induction u as [|u IH|u IH|u IH|u IH|u IH|u IH|u IH|u IH|u IH|u IH];
    [reflexivity|..];
    cbn [NilEmpty.string_of_uint Py.parse_digits Pos.of_uint];
    (match goal with
     | |- match Py.digit_of ?c with _ => _ end = _ =>
         let d := eval vm_compute in (Py.digit_of c) in
         change (Py.digit_of c) with d
     end);
    cbv beta iota;
    [exact IH|..]; cbn [Z.of_N]; (etransitivity; [|apply parse_digits_acc]); reflexivity.
Qed.

Lemma parse_int_pos (p : positive) :
  Py.parse_int (NilEmpty.string_of_uint (Pos.to_uint p)) = Some (Z.pos p)
  ∧ NilZero.string_of_uint (Pos.to_uint p) = NilEmpty.string_of_uint (Pos.to_uint p)
  ∧ NilEmpty.string_of_uint (Pos.to_uint p) ≠ EmptyString.
Proof.
  pose proof (DecimalPos.Unsigned.of_to p) as Hof.
  pose proof (parse_digits_uint (Pos.to_uint p)) as Hp. rewrite Hof in Hp.
  destruct (Pos.to_uint p) as [|u|u|u|u|u|u|u|u|u|u]; [discriminate Hof|..];
    (split; [exact Hp|split; [reflexivity|discriminate]]).
Qed.

Lemma parse_int_str_int (n : Z) : Py.parse_int (Py.str_int n) = Some n.
Proof.
  unfold Py.str_int, Z.to_int. destruct n as [|p|p]; [reflexivity|..];
    cbn [NilZero.string_of_int]; destruct (parse_int_pos p) as (Hp & -> & Hne).
  - exact Hp.
  - destruct (NilEmpty.string_of_uint (Pos.to_uint p)) as [|c s] eqn:E; [contradiction|].
    cbn [Py.parse_int].
    assert (Hd : Py.parse_digits 0 (String c s) = Some (Z.pos p)).
    { revert Hp. unfold Py.parse_int.
      destruct (Ascii.eqb c "-") eqn:Ec.
      - apply Ascii.eqb_eq in Ec. subst c.
        pose proof (lacks_uint "-" (Pos.to_uint p) eq_refl) as Hl. rewrite E in Hl.
        discriminate Hl.
      - destruct c as [[] [] [] [] [] [] [] []]; try discriminate Ec; auto. }
    rewrite Hd. reflexivity.
Qed.

Lemma split_join (sep : ascii) (l : list string) :
  l ≠ [] → Forall (fun s => lacks sep s = true) l →
  Py.split sep (Py.join (String sep EmptyString) l) = l.
Proof.
  intros Hne Hall. unfold Py.join.
  induction Hall as [|s l Hs Hl IH]; [contradiction|].
  destruct l as [|s' l'].
  - cbn [String.concat]. apply split_lacks. exact Hs.
  - change (String.concat (String sep EmptyString) (s :: s' :: l'))
      with (s +:+ String sep (String.concat (String sep EmptyString) (s' :: l'))).
    rewrite split_app, (split_lacks sep s Hs), IH by discriminate. reflexivity.
Qed.

Lemma mapM_parse_str_int (vals : list Z) :
  mapM Py.parse_int (map Py.str_int vals) = Some vals.
Proof.
  induction vals as [|v vals IH]; [reflexivity|].
  cbn [map mapM]. rewrite parse_int_str_int. cbn [mbind option_bind].
  rewrite IH. reflexivity.
Qed.

Lemma rotation_values_join (vals : list Z) :
  vals ≠ [] → rotation_values (Py.join " " (map Py.str_int vals)) = Some vals.
Proof.
  intros Hne. unfold rotation_values.
  rewrite split_join.
  - apply mapM_parse_str_int.
  - destruct vals; [contradiction|discriminate].
  - apply List.Forall_forall. intros s Hin. apply in_map_iff in Hin as (v & <- & _).
    apply lacks_str_int. reflexivity.
Qed.

Lemma flip_rotation_join (vals : list Z) :
  length vals = 9%nat →
  _flip_rotation_y (Py.join " " (map Py.str_int vals))
  = Some (Py.join " " (map Py.str_int (negate_rows_2_3 vals))).
Proof.
  intros Hlen. unfold _flip_rotation_y.
  pose proof (rotation_values_join vals) as Hv. unfold rotation_values in Hv.
  rewrite Hv by (destruct vals; [discriminate Hlen|discriminate]).
  do 9 (destruct vals as [|? vals]; [discriminate Hlen|]).
  destruct vals; [|discriminate Hlen]. reflexivity.
Qed.

Lemma negate_rows_twice (vals : list Z) :
  length vals = 9%nat → negate_rows_2_3 (negate_rows_2_3 vals) = vals.
Proof.
  intros Hlen. do 9 (destruct vals as [|? vals]; [discriminate Hlen|]).
  destruct vals; [|discriminate Hlen]. unfold negate_rows_2_3. cbn.
  rewrite !Z.opp_involutive. reflexivity.
Qed.

Lemma negate_rows_length (vals : list Z) :
  length (negate_rows_2_3 vals) = length vals.
Proof. unfold negate_rows_2_3. apply length_imap. Qed.

(** X11: for any nine integers that floating point holds exactly, the flip
    of the rotation string that lists them is the string of the matrix with
    its second and third rows negated (the first row unchanged), and
    flipping twice gives the original string back. *)
Theorem X11_flip_rotation_negates_and_undoes (vals : list Z) :
  length vals = 9%nat →
  Forall (fun v => Z.abs v ≤ 2 ^ 53) vals →
  let rotation_str := Py.join " " (map Py.str_int vals) in
  rotation_values rotation_str = Some vals
  ∧ _flip_rotation_y rotation_str
    = Some (Py.join " " (map Py.str_int (negate_rows_2_3 vals)))
  ∧ (_flip_rotation_y rotation_str ≫= rotation_values) = Some (negate_rows_2_3 vals)
  ∧ (_flip_rotation_y rotation_str ≫= _flip_rotation_y) = Some rotation_str.
Proof.
  intros Hlen _ rotation_str. subst rotation_str.
  assert (Hne : ∀ l : list Z, length l = 9%nat → l ≠ [])
    by (intros l Hl; destruct l; [discriminate Hl|discriminate]).
  split; [apply rotation_values_join, Hne, Hlen|].
  rewrite (flip_rotation_join vals Hlen). cbn [mbind option_bind].
  split; [reflexivity|]. split.
  - apply rotation_values_join, Hne. rewrite negate_rows_length. exact Hlen.
  - rewrite flip_rotation_join by (rewrite negate_rows_length; exact Hlen).
    rewrite negate_rows_twice by exact Hlen. reflexivity.
Qed.

(** A rotation by 90 degrees about the vertical axis with a scaling. *)
Lemma X11_flip_rotation_witness :
  (_flip_rotation_y "0 0 -2 0 2 0 2 0 0" ≫= _flip_rotation_y)
  = Some "0 0 -2 0 2 0 2 0 0"%string.
Proof.
  refine (proj2 (proj2 (proj2
            (X11_flip_rotation_negates_and_undoes [0; 0; -2; 0; 2; 0; 2; 0; 0] eq_refl _)))).
  repeat constructor; vm_compute; discriminate.
Defined.

(** ** The one-per-voxel conversion *)







